(** * Turn aggregation, turn evaluation and session recording

    A shallow embedding of the coaching pipeline of [server/]:
    [conversation_aggregator.py], [coach.py], [session_logger.py],
    [prompts_loader.py] and the transcript handler of [bot.py].

    Conventions.
    - A Python [str] is a [string]; each [ascii] stands for one code point
      in the range 0..255.
    - A Python [int] is a [Z].
    - Mutable objects are explicit states: every method takes the state of
      [self] and returns the new state next to its result.
    - Exceptions are values of [result]; the calls to [loguru] have no
      effect on any state or result and are left out. *)

From Stdlib Require Import String Ascii List Bool Arith ZArith Lia Sorted.
Import ListNotations.
Open Scope string_scope.

(** ** Exceptions *)

(** The exceptions the pipeline tells apart: [asyncio.TimeoutError], and
    every other [Exception], kept as its class name and [str(e)]. *)
Inductive exn :=
| TimeoutError
| Error (class_name : string) (str : string).

(** The outcome of a call that may raise. *)
Inductive result (A : Type) :=
| Ok (a : A)
| Raise (e : exn).
Arguments Ok {A} a.
Arguments Raise {A} e.

Definition bind {A B} (r : result A) (k : A -> result B) : result B :=
  match r with
  | Ok a => k a
  | Raise e => Raise e
  end.

Notation "x <- r ;; k" := (bind r (fun x => k))
  (at level 61, r at next level, right associativity).

(** [str(e)] *)
Definition str_of_exn (e : exn) : string :=
  match e with
  | TimeoutError => ""
  | Error _ s => s
  end.

(** ** Python's [str] methods *)
Module PyStr.

(** [str.isspace] on one code point below 256: the ASCII white space, the
    four separators FS, GS, RS, US, NEL (0x85) and NBSP (0xA0). *)
Definition isspace (c : ascii) : bool :=
  let n := nat_of_ascii c in
  (((9 <=? n) && (n <=? 13)) || ((28 <=? n) && (n <=? 32))
   || (n =? 133) || (n =? 160))%nat.

Fixpoint lstrip (s : string) : string :=
  match s with
  | EmptyString => EmptyString
  | String c s' => if isspace c then lstrip s' else s
  end.

Fixpoint rstrip (s : string) : string :=
  match s with
  | EmptyString => EmptyString
  | String c s' =>
      match rstrip s' with
      | EmptyString => if isspace c then EmptyString else String c EmptyString
      | r => String c r
      end
  end.

(** [s.strip()] *)
Definition strip (s : string) : string := rstrip (lstrip s).

(** [s.split()] without argument: the maximal runs of characters that are
    not white space, in order. *)
Fixpoint split (s : string) : list string :=
  match s with
  | EmptyString => []
  | String c s' =>
      let ws := split s' in
      if isspace c then ws
      else match s' with
           | EmptyString => [String c EmptyString]
           | String c' _ =>
               if isspace c' then String c EmptyString :: ws
               else match ws with
                    | w :: ws' => String c w :: ws'
                    | [] => [String c EmptyString]
                    end
           end
  end.

(** [sep.join(parts)] *)
Fixpoint join (sep : string) (parts : list string) : string :=
  match parts with
  | [] => EmptyString
  | [p] => p
  | p :: ps => p ++ sep ++ join sep ps
  end.

(** Truth value of a [str]: every string but the empty one. *)
Definition truthy (s : string) : bool :=
  match s with EmptyString => false | _ => true end.

(** Truth value of an [Optional[str]]. *)
Definition truthy_opt (o : option string) : bool :=
  match o with Some s => truthy s | None => false end.

(** [s.find(c)] for a one-character needle: the first index, or [-1]. *)
Fixpoint find (c : ascii) (s : string) : Z :=
  match s with
  | EmptyString => (-1)%Z
  | String d s' =>
      if Ascii.eqb c d then 0%Z
      else let i := find c s' in
           if (i =? -1)%Z then (-1)%Z else (i + 1)%Z
  end.

(** [s.rfind(c)] for a one-character needle: the last index, or [-1]. *)
Fixpoint rfind (c : ascii) (s : string) : Z :=
  match s with
  | EmptyString => (-1)%Z
  | String d s' =>
      let i := rfind c s' in
      if (i =? -1)%Z then (if Ascii.eqb c d then 0%Z else (-1)%Z)
      else (i + 1)%Z
  end.

(** [s[a:b]] for [0 <= a] and [0 <= b]. *)
Definition slice (s : string) (a b : Z) : string :=
  substring (Z.to_nat a) (Z.to_nat b - Z.to_nat a) s.

(** [c.lower()] on one code point below 256. *)
Definition lower_char (c : ascii) : ascii :=
  let n := nat_of_ascii c in
  if (((65 <=? n) && (n <=? 90))
      || ((192 <=? n) && (n <=? 222) && negb (n =? 215)))%nat
  then ascii_of_nat (n + 32) else c.

Fixpoint lower (s : string) : string :=
  match s with
  | EmptyString => EmptyString
  | String c s' => String (lower_char c) (lower s')
  end.

(** [needle in s] *)
Fixpoint contains (needle s : string) : bool :=
  prefix needle s
  || match s with
     | EmptyString => false
     | String _ s' => contains needle s'
     end.

(** A word: not empty, no white space. *)
Fixpoint no_space (w : string) : bool :=
  match w with
  | EmptyString => true
  | String c w' => negb (isspace c) && no_space w'
  end.

Definition is_word (w : string) : Prop := w <> "" /\ no_space w = true.

End PyStr.

(** ** The values and the decoder of Python's [json] module *)
Module Json.

#[warning="-register-all"]
(** The Python values that [json.loads] builds. [JNull] is [None]; a float
    is kept as the decimal [m * 10 ^ e] that its literal denotes; a [dict]
    is the list of its items in insertion order, with distinct keys. *)
Inductive json :=
| JNull
| JBool (b : bool)
| JInt (n : Z)
| JFloat (m e : Z)
| JNaN
| JInf (negative : bool)
| JStr (s : string)
| JArr (items : list json)
| JObj (items : list (string * json)).

(** Truth value of a decoded value, as [if parsed:] tests it. *)
Definition truthy (v : json) : bool :=
  match v with
  | JNull => false
  | JBool b => b
  | JInt n => negb (n =? 0)%Z
  | JFloat m e =>
      (* zero, or a literal below half the least positive float, which
         is read as 0.0 *)
      negb (m =? 0)%Z
      && ((0 <=? e)%Z || (10 ^ (- e) <? Z.abs m * 2 ^ 1075)%Z)
  | JNaN => true
  | JInf _ => true
  | JStr s => PyStr.truthy s
  | JArr l => match l with [] => false | _ => true end
  | JObj l => match l with [] => false | _ => true end
  end.

(** [d[k] = v] on a [dict]: a present key keeps its place. *)
Fixpoint dict_set (d : list (string * json)) (k : string) (v : json)
  : list (string * json) :=
  match d with
  | [] => [(k, v)]
  | (k', v') :: d' =>
      if k =? k' then (k, v) :: d' else (k', v') :: dict_set d' k v
  end.

(** [dict(pairs)] *)
Definition dict_of_pairs (pairs : list (string * json)) : list (string * json) :=
  fold_left (fun d kv => dict_set d (fst kv) (snd kv)) pairs [].

(** The decoder's white space: space, tab, line feed, carriage return. *)
Definition is_ws (c : ascii) : bool :=
  let n := nat_of_ascii c in
  ((n =? 32) || (n =? 9) || (n =? 10) || (n =? 13))%nat.

Fixpoint skip_ws (s : string) : string :=
  match s with
  | String c s' => if is_ws c then skip_ws s' else s
  | EmptyString => s
  end.

Definition digit_of (c : ascii) : option Z :=
  let n := nat_of_ascii c in
  if ((48 <=? n) && (n <=? 57))%nat then Some (Z.of_nat (n - 48)) else None.

Definition hex_of (c : ascii) : option Z :=
  let n := nat_of_ascii c in
  if ((48 <=? n) && (n <=? 57))%nat then Some (Z.of_nat (n - 48))
  else if ((65 <=? n) && (n <=? 70))%nat then Some (Z.of_nat (n - 55))
  else if ((97 <=? n) && (n <=? 102))%nat then Some (Z.of_nat (n - 87))
  else None.

(** The longest run of decimal digits at the head of [s]: the number it
    denotes after the digits [acc], how many digits it has, and the rest. *)
Fixpoint digits (acc : Z) (count : Z) (s : string) : Z * Z * string :=
  match s with
  | String c s' =>
      match digit_of c with
      | Some d => digits (10 * acc + d) (count + 1) s'
      | None => (acc, count, s)
      end
  | EmptyString => (acc, count, s)
  end.

(** The integer part of a number: a single 0, or a digit from 1 to 9
    followed by any digits. *)
Definition int_part (s : string) : option (Z * string) :=
  match s with
  | String c s' =>
      match digit_of c with
      | Some 0%Z => Some (0%Z, s')
      | Some d => let '(n, _, r) := digits d 1 s' in Some (n, r)
      | None => None
      end
  | EmptyString => None
  end.

(** The optional fraction, a dot and at least one digit: the mantissa with the fraction's
    digits appended, their number, and the rest. *)
Definition frac_part (m : Z) (s : string) : option (Z * Z * string) :=
  match s with
  | String "." s' =>
      let '(m', k, r) := digits m 0 s' in
      if (k =? 0)%Z then None else Some (m', k, r)
  | _ => None
  end.

(** The optional exponent: e or E, an optional sign, at least one digit. *)
Definition exp_part (s : string) : option (Z * string) :=
  let after_sign (neg : bool) (s' : string) :=
    let '(e, k, r) := digits 0 0 s' in
    if (k =? 0)%Z then None else Some (if neg then (- e)%Z else e, r) in
  match s with
  | String c s' =>
      if (Ascii.eqb c "e" || Ascii.eqb c "E")%bool then
        match s' with
        | String "-" s'' => after_sign true s''
        | String "+" s'' => after_sign false s''
        | _ => after_sign false s'
        end
      else None
  | EmptyString => None
  end.

(** A match of the decoder's number pattern at the head of [s]. *)
Definition match_number (s : string) : option (json * string) :=
  let '(neg, s1) :=
    match s with String "-" s' => (true, s') | _ => (false, s) end in
  match int_part s1 with
  | None => None
  | Some (n, s2) =>
      let sign (z : Z) := if neg then (- z)%Z else z in
      match frac_part n s2 with
      | Some (m, k, s3) =>
          match exp_part s3 with
          | Some (e, s4) => Some (JFloat (sign m) (e - k), s4)
          | None => Some (JFloat (sign m) (- k), s3)
          end
      | None =>
          match exp_part s2 with
          | Some (e, s4) => Some (JFloat (sign n) e, s4)
          | None => Some (JInt (sign n), s2)
          end
      end
  end.

(** The double quote character. *)
Definition quote : ascii := ascii_of_nat 34.

(** Four hexadecimal digits of a [\u] escape. *)
Definition hex4 (s : string) : option (Z * string) :=
  match s with
  | String a (String b (String c (String d r))) =>
      match hex_of a, hex_of b, hex_of c, hex_of d with
      | Some x, Some y, Some z, Some w =>
          Some ((((x * 16 + y) * 16 + z) * 16 + w)%Z, r)
      | _, _, _, _ => None
      end
  | _ => None
  end.

(** [scanstring] in strict mode, after the opening quote. An escape that
    denotes a code point above 255 has no image in [string]: such a text
    lies outside this model of [str], and the decoder gives no value for
    it, where Python decodes it. *)
Fixpoint scanstring (s : string) : option (string * string) :=
  match s with
  | EmptyString => None
  | String c s' =>
      if Ascii.eqb c quote then Some (EmptyString, s')
      else if Ascii.eqb c "\" then
        match s' with
        | String e s'' =>
            let lit (ch : ascii) :=
              match scanstring s'' with
              | Some (t, r) => Some (String ch t, r)
              | None => None
              end in
            if Ascii.eqb e quote then lit quote
            else if Ascii.eqb e "\" then lit "\"%char
            else if Ascii.eqb e "/" then lit "/"%char
            else if Ascii.eqb e "b" then lit (ascii_of_nat 8)
            else if Ascii.eqb e "f" then lit (ascii_of_nat 12)
            else if Ascii.eqb e "n" then lit (ascii_of_nat 10)
            else if Ascii.eqb e "r" then lit (ascii_of_nat 13)
            else if Ascii.eqb e "t" then lit (ascii_of_nat 9)
            else if Ascii.eqb e "u" then
              match hex4 s'' with
              | Some (cp, _) =>
                  if (cp <? 256)%Z then
                    match scanstring_tail s'' with
                    | Some (t, r) => Some (String (ascii_of_nat (Z.to_nat cp)) t, r)
                    | None => None
                    end
                  else None
              | None => None
              end
            else None
        | EmptyString => None
        end
      else if (nat_of_ascii c <? 32)%nat then None
      else match scanstring s' with
           | Some (t, r) => Some (String c t, r)
           | None => None
           end
  end
with scanstring_tail (s : string) : option (string * string) :=
  match s with
  | String _ (String _ (String _ (String _ r))) => scanstring r
  | _ => None
  end.

(** [s[n:]] *)
Fixpoint drop (n : nat) (s : string) : string :=
  match n, s with
  | S n', String _ s' => drop n' s'
  | _, _ => s
  end.

Section Containers.

(** The scanner for the values inside an array or an object. *)
Variable scan : string -> option (json * string).

(** The loop of [JSONArray]: [s] starts at the next item. *)
Fixpoint array_items (n : nat) (values : list json) (s : string)
  : option (json * string) :=
  match n with
  | O => None
  | S n' =>
      match scan s with
      | None => None
      | Some (value, r) =>
          match skip_ws r with
          | String "]" r' => Some (JArr (values ++ [value]), r')
          | String "," r' => array_items n' (values ++ [value]) (skip_ws r')
          | _ => None
          end
      end
  end.

(** [JSONArray], after the opening bracket. *)
Definition JSONArray (s : string) : option (json * string) :=
  match skip_ws s with
  | String "]" r => Some (JArr [], r)
  | s' => array_items (S (String.length s')) [] s'
  end.

(** The loop of [JSONObject]: [s] starts after the opening quote of the
    next key. *)
Fixpoint object_items (n : nat) (pairs : list (string * json)) (s : string)
  : option (json * string) :=
  match n with
  | O => None
  | S n' =>
      match scanstring s with
      | None => None
      | Some (key, r) =>
          match skip_ws r with
          | String ":" r1 =>
              match scan (skip_ws r1) with
              | None => None
              | Some (value, r2) =>
                  match skip_ws r2 with
                  | String "}" r3 =>
                      Some (JObj (dict_of_pairs (pairs ++ [(key, value)])), r3)
                  | String "," r3 =>
                      match skip_ws r3 with
                      | String c r4 =>
                          if Ascii.eqb c quote
                          then object_items n' (pairs ++ [(key, value)]) r4
                          else None
                      | EmptyString => None
                      end
                  | _ => None
                  end
              end
          | _ => None
          end
      end
  end.

(** [JSONObject], after the opening brace. *)
Definition JSONObject (s : string) : option (json * string) :=
  match skip_ws s with
  | String "}" r => Some (JObj [], r)
  | String c r =>
      if Ascii.eqb c quote then object_items (S (String.length r)) [] r
      else None
  | EmptyString => None
  end.

End Containers.

(** [scan_once] at the head of [s]; [fuel] bounds the nesting depth. *)
Fixpoint scan_once (fuel : nat) (s : string) : option (json * string) :=
  match fuel with
  | O => None
  | S fuel' =>
      match s with
      | EmptyString => None
      | String c s' =>
          if Ascii.eqb c quote then
            match scanstring s' with
            | Some (t, r) => Some (JStr t, r)
            | None => None
            end
          else if Ascii.eqb c "{" then JSONObject (scan_once fuel') s'
          else if Ascii.eqb c "[" then JSONArray (scan_once fuel') s'
          else if Ascii.eqb c "n" && prefix "null" s then Some (JNull, drop 4 s)
          else if Ascii.eqb c "t" && prefix "true" s then Some (JBool true, drop 4 s)
          else if Ascii.eqb c "f" && prefix "false" s then Some (JBool false, drop 5 s)
          else
            match match_number s with
            | Some r => Some r
            | None =>
                if Ascii.eqb c "N" && prefix "NaN" s then Some (JNaN, drop 3 s)
                else if Ascii.eqb c "I" && prefix "Infinity" s
                then Some (JInf false, drop 8 s)
                else if Ascii.eqb c "-" && prefix "-Infinity" s
                then Some (JInf true, drop 9 s)
                else None
            end
      end
  end.

(** [json.loads(s)]: [None] stands for a raised [JSONDecodeError]. The
    nesting of [s] never exceeds its length, so the fuel given here is
    never the reason for a failure; the interpreter's own limits (recursion
    depth, digits of an integer) are not modelled. *)
Definition json_loads (s : string) : option json :=
  match scan_once (S (String.length s)) (skip_ws s) with
  | Some (v, r) =>
      match skip_ws r with
      | EmptyString => Some v
      | _ => None
      end
  | None => None
  end.

(** [d.get(key, default)] on a [dict]. *)
Definition dict_get (d : list (string * json)) (key : string) (default : json) : json :=
  match List.find (fun kv => fst kv =? key) d with
  | Some kv => snd kv
  | None => default
  end.

End Json.

(** ** conversation_aggregator.py *)
Module Aggregator.

Record ConversationTurn := mkTurn {
  customer_prompt : option string;
  representative_responses : list string
}.

(** [ConversationTurn.get_aggregated_representative_response] *)
Definition get_aggregated_representative_response (t : ConversationTurn) : string :=
  match representative_responses t with
  | [] => ""
  | frs => PyStr.join " " (PyStr.split (PyStr.join " " frs))
  end.

(** [ConversationTurn.is_complete] *)
Definition is_complete (t : ConversationTurn) : bool :=
  PyStr.truthy_opt (customer_prompt t)
  && match representative_responses t with [] => false | _ => true end.

Record ConversationAggregator := mkAgg {
  pending_customer_prompt : option string;
  pending_rep_fragments : list string;
  completed_turns : list ConversationTurn;
  _turn_count : Z
}.

(** [ConversationAggregator.__init__] *)
Definition init : ConversationAggregator :=
  {| pending_customer_prompt := None;
     pending_rep_fragments := [];
     completed_turns := [];
     _turn_count := 0 |}.

(** Truth value of a list. *)
Definition nonempty {A} (l : list A) : bool :=
  match l with [] => false | _ => true end.

(** The test [self.pending_customer_prompt and self.pending_rep_fragments]. *)
Definition has_pending_turn (a : ConversationAggregator) : bool :=
  PyStr.truthy_opt (pending_customer_prompt a)
  && nonempty (pending_rep_fragments a).

(** The two lines that build [aggregated_rep]. *)
Definition aggregate (frs : list string) : string :=
  PyStr.join " " (PyStr.split (PyStr.join " " frs)).

(** The guard [not content or not content.strip()]. *)
Definition is_blank (content : string) : bool :=
  negb (PyStr.truthy content) || negb (PyStr.truthy (PyStr.strip content)).

(** [ConversationAggregator.add_message] *)
Definition add_message (a : ConversationAggregator) (role content : string)
  : option (string * string) * ConversationAggregator :=
  if is_blank content then (None, a)
  else if role =? "assistant" then
    if has_pending_turn a then
      let aggregated_rep := aggregate (pending_rep_fragments a) in
      match pending_customer_prompt a with
      | Some previous_prompt =>
          let turn := {| customer_prompt := Some previous_prompt;
                         representative_responses := pending_rep_fragments a |} in
          (Some (previous_prompt, aggregated_rep),
           {| pending_customer_prompt := Some (PyStr.strip content);
              pending_rep_fragments := [];
              completed_turns := completed_turns a ++ [turn];
              _turn_count := _turn_count a + 1 |})
      | None => (None, a) (* excluded by [has_pending_turn] *)
      end
    else
      (None,
       {| pending_customer_prompt := Some (PyStr.strip content);
          pending_rep_fragments := [];
          completed_turns := completed_turns a;
          _turn_count := _turn_count a |})
  else if role =? "user" then
    if negb (PyStr.truthy_opt (pending_customer_prompt a)) then (None, a)
    else
      (None,
       {| pending_customer_prompt := pending_customer_prompt a;
          pending_rep_fragments := pending_rep_fragments a ++ [PyStr.strip content];
          completed_turns := completed_turns a;
          _turn_count := _turn_count a |})
  else (None, a).

(** [ConversationAggregator.flush_pending_turn] *)
Definition flush_pending_turn (a : ConversationAggregator)
  : option (string * string) * ConversationAggregator :=
  if has_pending_turn a then
    let aggregated_rep := aggregate (pending_rep_fragments a) in
    match pending_customer_prompt a with
    | Some customer_prompt =>
        let turn := {| customer_prompt := Some customer_prompt;
                       representative_responses := pending_rep_fragments a |} in
        (Some (customer_prompt, aggregated_rep),
         {| pending_customer_prompt := None;
            pending_rep_fragments := [];
            completed_turns := completed_turns a ++ [turn];
            _turn_count := _turn_count a + 1 |})
    | None => (None, a) (* excluded by [has_pending_turn] *)
    end
  else (None, a).

(** [ConversationAggregator.get_pending_representative_response] *)
Definition get_pending_representative_response (a : ConversationAggregator)
  : option string :=
  match pending_rep_fragments a with
  | [] => None
  | frs => Some (aggregate frs)
  end.

(** [ConversationAggregator.get_last_complete_turn] *)
Definition get_last_complete_turn (a : ConversationAggregator)
  : option ConversationTurn :=
  last (map Some (completed_turns a)) None.

(** [ConversationAggregator.get_turn_count] *)
Definition get_turn_count (a : ConversationAggregator) : Z := _turn_count a.

(** [ConversationAggregator.reset] *)
Definition reset (a : ConversationAggregator) : ConversationAggregator := init.

(** The calls a client can make on an aggregator. *)
Inductive op :=
| AddMessage (role content : string)
| FlushPendingTurn
| Reset.

Definition step (a : ConversationAggregator) (o : op)
  : option (string * string) * ConversationAggregator :=
  match o with
  | AddMessage role content => add_message a role content
  | FlushPendingTurn => flush_pending_turn a
  | Reset => (None, reset a)
  end.

(** A sequence of calls, from the left; the results are dropped. *)
Definition run_ops (a : ConversationAggregator) (os : list op) : ConversationAggregator :=
  fold_left (fun a o => snd (step a o)) os a.

(** A stream of [(role, content)] events fed through [add_message]: the
    pairs returned along the way, and the final state. *)
Fixpoint feed (a : ConversationAggregator) (evs : list (string * string))
  : list (option (string * string)) * ConversationAggregator :=
  match evs with
  | [] => ([], a)
  | (role, content) :: evs' =>
      let '(r, a') := add_message a role content in
      let '(rs, a'') := feed a' evs' in
      (r :: rs, a'')
  end.

(** The role of the customer (the persona played by the bot) and of the
    representative (the person being coached). *)
Definition customer : string := "assistant".
Definition representative : string := "user".

(** A completed turn: a prompt that is present and not empty, and at
    least one fragment. *)
Definition well_formed_turn (t : ConversationTurn) : Prop :=
  (exists p, customer_prompt t = Some p /\ p <> "")
  /\ representative_responses t <> [].

(** The events that [add_message] acts on: content that passes the blank
    guard, and one of the two roles. *)
Definition relevant (ev : string * string) : bool :=
  negb (is_blank (snd ev)) && ((fst ev =? "assistant") || (fst ev =? "user")).

(** The pairs among the results of a stream. *)
Definition returned (rs : list (option (string * string))) : list (string * string) :=
  flat_map (fun r => match r with Some p => [p] | None => [] end) rs.

(** Every fragment an aggregator holds: those of its completed turns, in
    order, then the pending ones. *)
Definition held_fragments (a : ConversationAggregator) : list string :=
  concat (map representative_responses (completed_turns a))
  ++ pending_rep_fragments a.

(** The stripped contents of the representative's messages of a stream
    that pass the blank guard. *)
Definition representative_contents (evs : list (string * string)) : list string :=
  map (fun ev => PyStr.strip (snd ev))
    (filter (fun ev => negb (is_blank (snd ev)) && (fst ev =? "user")) evs).

(** What holds of the pending part of every state that can be reached:
    fragments only under a prompt, and no empty prompt or fragment. *)
Definition pending_consistent (a : ConversationAggregator) : Prop :=
  (pending_rep_fragments a <> [] ->
   PyStr.truthy_opt (pending_customer_prompt a) = true)
  /\ (forall p, pending_customer_prompt a = Some p -> p <> "")
  /\ Forall (fun f => f <> "") (pending_rep_fragments a).

End Aggregator.

(** ** session_logger.py *)
Module Logger.
Import Json.

(** One reading of the clock: [_now_ms()] and the display time stamp
    [time.strftime("%H:%M:%S %d-%m-%Y", ...)]. *)
Record Clock := mkClock {
  now_ms : Z;
  now_display : string
}.

Record TranscriptEntry := mkEntry {
  ts_ms : Z;
  ts : string;
  role : string;
  content : string
}.

(** [dataclasses.asdict] on a [TranscriptEntry]. *)
Definition asdict (t : TranscriptEntry) : json :=
  JObj [("ts_ms", JInt (ts_ms t)); ("ts", JStr (ts t));
        ("role", JStr (role t)); ("content", JStr (content t))].

(** The in-memory collections of a [SessionLogger], and what its files
    hold: the value last dumped to each, [None] before the first write.
    Opening and writing a file are taken to succeed. *)
Record SessionLogger := mkLogger {
  _session_id : string;
  _scenario : string;
  _transcript : list TranscriptEntry;
  _interim_transcript : list json;
  _coach_turns : list json;
  transcript_file : option json;
  interim_transcript_file : option json;
  per_turn_file : option json;
  session_eval_file : option string
}.

(** [SessionLogger.__init__] with the session stamp already chosen. *)
Definition init (scenario stamp : string) : SessionLogger :=
  {| _session_id := stamp;
     _scenario := scenario;
     _transcript := [];
     _interim_transcript := [];
     _coach_turns := [];
     transcript_file := None;
     interim_transcript_file := None;
     per_turn_file := None;
     session_eval_file := None |}.

(** [SessionLogger._flush_transcript] *)
Definition _flush_transcript (l : SessionLogger) : SessionLogger :=
  {| _session_id := _session_id l;
     _scenario := _scenario l;
     _transcript := _transcript l;
     _interim_transcript := _interim_transcript l;
     _coach_turns := _coach_turns l;
     transcript_file := Some (JArr (map asdict (_transcript l)));
     interim_transcript_file := interim_transcript_file l;
     per_turn_file := per_turn_file l;
     session_eval_file := session_eval_file l |}.

(** [SessionLogger._flush_interim_transcript] *)
Definition _flush_interim_transcript (l : SessionLogger) : SessionLogger :=
  {| _session_id := _session_id l;
     _scenario := _scenario l;
     _transcript := _transcript l;
     _interim_transcript := _interim_transcript l;
     _coach_turns := _coach_turns l;
     transcript_file := transcript_file l;
     interim_transcript_file := Some (JArr (_interim_transcript l));
     per_turn_file := per_turn_file l;
     session_eval_file := session_eval_file l |}.

(** [SessionLogger._flush_per_turn] *)
Definition _flush_per_turn (l : SessionLogger) : SessionLogger :=
  {| _session_id := _session_id l;
     _scenario := _scenario l;
     _transcript := _transcript l;
     _interim_transcript := _interim_transcript l;
     _coach_turns := _coach_turns l;
     transcript_file := transcript_file l;
     interim_transcript_file := interim_transcript_file l;
     per_turn_file := Some (JArr (_coach_turns l));
     session_eval_file := session_eval_file l |}.

Definition set_transcript (l : SessionLogger) (t : list TranscriptEntry) : SessionLogger :=
  {| _session_id := _session_id l;
     _scenario := _scenario l;
     _transcript := t;
     _interim_transcript := _interim_transcript l;
     _coach_turns := _coach_turns l;
     transcript_file := transcript_file l;
     interim_transcript_file := interim_transcript_file l;
     per_turn_file := per_turn_file l;
     session_eval_file := session_eval_file l |}.

Definition set_interim_transcript (l : SessionLogger) (t : list json) : SessionLogger :=
  {| _session_id := _session_id l;
     _scenario := _scenario l;
     _transcript := _transcript l;
     _interim_transcript := t;
     _coach_turns := _coach_turns l;
     transcript_file := transcript_file l;
     interim_transcript_file := interim_transcript_file l;
     per_turn_file := per_turn_file l;
     session_eval_file := session_eval_file l |}.

Definition set_coach_turns (l : SessionLogger) (t : list json) : SessionLogger :=
  {| _session_id := _session_id l;
     _scenario := _scenario l;
     _transcript := _transcript l;
     _interim_transcript := _interim_transcript l;
     _coach_turns := t;
     transcript_file := transcript_file l;
     interim_transcript_file := interim_transcript_file l;
     per_turn_file := per_turn_file l;
     session_eval_file := session_eval_file l |}.

(** The dictionary [{**asdict(entry), "is_interim": is_interim}]. *)
Definition interim_dict (entry : TranscriptEntry) (is_interim : bool) : json :=
  JObj [("ts_ms", JInt (ts_ms entry)); ("ts", JStr (ts entry));
        ("role", JStr (role entry)); ("content", JStr (content entry));
        ("is_interim", JBool is_interim)].

(** [SessionLogger.append_transcript] *)
Definition append_transcript (l : SessionLogger) (clock : Clock)
    (role content : string) (is_interim : bool) : SessionLogger :=
  let entry := {| ts_ms := now_ms clock; ts := now_display clock;
                  role := role; content := content |} in
  let l1 :=
    if negb is_interim
    then _flush_transcript (set_transcript l (_transcript l ++ [entry]))
    else l in
  _flush_interim_transcript
    (set_interim_transcript l1
       (_interim_transcript l1 ++ [interim_dict entry is_interim])).

(** The entry that [append_coach_turn] builds. *)
Definition coach_turn_entry (clock : Clock) (turn_index : Z)
    (customer_message representative_response : string) (evaluation : json) : json :=
  JObj [("ts_ms", JInt (now_ms clock)); ("ts", JStr (now_display clock));
        ("turn", JInt turn_index);
        ("interaction", JObj [("customer", JStr customer_message);
                              ("representative", JStr representative_response)]);
        ("coaching", evaluation)].

(** [SessionLogger.append_coach_turn] *)
Definition append_coach_turn (l : SessionLogger) (clock : Clock) (turn_index : Z)
    (customer_message representative_response : string) (evaluation : json)
  : SessionLogger :=
  _flush_per_turn
    (set_coach_turns l
       (_coach_turns l ++
        [coach_turn_entry clock turn_index customer_message
           representative_response evaluation])).

(** [SessionLogger.snapshot_transcript]; the path it returns is fixed at
    construction and left out. *)
Definition snapshot_transcript (l : SessionLogger) : SessionLogger :=
  _flush_transcript l.

(** [SessionLogger.write_session_eval] *)
Definition write_session_eval (l : SessionLogger) (markdown_content : string)
  : SessionLogger :=
  {| _session_id := _session_id l;
     _scenario := _scenario l;
     _transcript := _transcript l;
     _interim_transcript := _interim_transcript l;
     _coach_turns := _coach_turns l;
     transcript_file := transcript_file l;
     interim_transcript_file := interim_transcript_file l;
     per_turn_file := per_turn_file l;
     session_eval_file := Some markdown_content |}.

(** [SessionLogger.get_transcript_for_assessment] *)
Definition get_transcript_for_assessment (l : SessionLogger) : list json :=
  map asdict (_transcript l).

(** One call of [append_transcript], with the clock reading it makes. *)
Record call := mkCall {
  call_clock : Clock;
  call_role : string;
  call_content : string;
  call_is_interim : bool
}.





(** The calls a client can make on a logger. *)
Inductive op :=
| AppendTranscript (c : call)
| AppendCoachTurn (clock : Clock) (turn_index : Z)
    (customer_message representative_response : string) (evaluation : json)
| SnapshotTranscript
| WriteSessionEval (markdown_content : string).

Definition step (l : SessionLogger) (o : op) : SessionLogger :=
  match o with
  | AppendTranscript c =>
      append_transcript l (call_clock c) (call_role c) (call_content c)
        (call_is_interim c)
  | AppendCoachTurn clock turn_index customer_message representative_response
      evaluation =>
      append_coach_turn l clock turn_index customer_message
        representative_response evaluation
  | SnapshotTranscript => snapshot_transcript l
  | WriteSessionEval markdown_content => write_session_eval l markdown_content
  end.

(** A sequence of calls, from the left. *)
Definition run_ops (l : SessionLogger) (os : list op) : SessionLogger :=
  fold_left step os l.

(** A file mirrors a collection: it was never written while the
    collection is still empty, or it holds the dump of all of it. *)
Definition mirrors (file : option json) (collection : list json) : Prop :=
  (file = None /\ collection = []) \/ file = Some (JArr collection).

(** The entries that a sequence of calls appends to the per-turn log. *)
Definition coach_turn_entries (os : list op) : list json :=
  flat_map (fun o => match o with
                     | AppendCoachTurn clock turn_index customer_message
                         representative_response evaluation =>
                         [coach_turn_entry clock turn_index customer_message
                            representative_response evaluation]
                     | _ => []
                     end) os.


(** The document last written by [write_session_eval], if any. *)
Definition last_session_eval (os : list op) : option string :=
  fold_left (fun acc o => match o with
                          | WriteSessionEval markdown_content => Some markdown_content
                          | _ => acc
                          end) os None.

(** What holds of a logger between calls. *)
Definition consistent (l : SessionLogger) : Prop :=
  mirrors (transcript_file l) (map asdict (_transcript l))
  /\ mirrors (interim_transcript_file l) (_interim_transcript l)
  /\ mirrors (per_turn_file l) (_coach_turns l).

End Logger.

(** ** prompts_loader.py *)
Module Prompts.

(** The fields of [Prompt.content] that the coach reads, at the types it
    reads them at; [None] is an absent key. The file [prompts.json] they
    are loaded from is configuration, not code. *)
Record Content := mkContent {
  system : option string;
  role_expertise : option (list string);
  evaluation_criteria : option (list string);
  behavioral_guidelines : option (list string);
  coaching_philosophy : option (list string);
  emotional_state : option string;
  key_phrases : option (list string);
  backstory : option (list string);
  instruction : option string;
  achievements : option (list string)
}.

Definition empty_content : Content :=
  mkContent None None None None None None None None None None.

Record Prompt := mkPrompt {
  id : string;
  name : string;
  entity : string;
  prompt_version : string;
  date_updated : string;
  content : Content;
  persona : option string;
  scenario : option string
}.

(** A [PromptsRepository] after [_load]: the values of [_index], in
    insertion order. *)
Definition PromptsRepository := list Prompt.

(** [d.get(key, default)] on an optional field. *)
Definition get {A} (field : option A) (default : A) : A :=
  match field with Some v => v | None => default end.

Definition eqb_opt (o : option string) (s : string) : bool :=
  match o with Some t => t =? s | None => false end.

(** [PromptsRepository.find]: each filter applies when its argument is
    given and not empty. *)
Definition find (repo : PromptsRepository)
    (entity_arg scenario_arg name_contains : option string) : list Prompt :=
  let results := repo in
  let results :=
    match entity_arg with
    | Some e => if PyStr.truthy e
                then filter (fun p => entity p =? e) results else results
    | None => results
    end in
  let results :=
    match scenario_arg with
    | Some sc => if PyStr.truthy sc
                 then filter (fun p => eqb_opt (scenario p) sc) results else results
    | None => results
    end in
  match name_contains with
  | Some n => if PyStr.truthy n
              then filter (fun p => PyStr.contains (PyStr.lower n)
                                      (PyStr.lower (name p))) results
              else results
  | None => results
  end.

(** [str(KeyError(msg))] is the [repr] of [msg]. *)
Definition KeyError (msg : string) : exn :=
  Error "KeyError" ("'" ++ msg ++ "'").

(** [PromptsRepository.coach_main_system_prompt] *)
Definition coach_main_system_prompt (repo : PromptsRepository) : result string :=
  match find repo (Some "coach_agent") None (Some "Main System Prompt") with
  | [] => Raise (KeyError "No coach main system prompt found")
  | p :: _ => Ok (get (system (content p)) "")
  end.

(** The test that [find] applies to each prompt. *)
Definition matches (entity_arg scenario_arg name_contains : option string)
    (p : Prompt) : bool :=
  match entity_arg with
  | Some e => if PyStr.truthy e then entity p =? e else true
  | None => true
  end
  && match scenario_arg with
     | Some sc => if PyStr.truthy sc then eqb_opt (scenario p) sc else true
     | None => true
     end
  && match name_contains with
     | Some n => if PyStr.truthy n
                 then PyStr.contains (PyStr.lower n) (PyStr.lower (name p))
                 else true
     | None => true
     end.

End Prompts.

(** ** coach.py *)
Module Coach.
Import Json Prompts.

(** [_safe_json_extract]: [JNull] is the [None] it returns on failure. *)
Definition _safe_json_extract (text : string) : json :=
  if negb (PyStr.truthy text) then JNull
  else
    match json_loads text with
    | Some v => v
    | None =>
        let start := PyStr.find "{" text in
        let end_ := PyStr.rfind "}" text in
        if (negb (start =? -1) && negb (end_ =? -1) && (start <? end_))%Z then
          let frag := PyStr.slice text start (end_ + 1) in
          match json_loads frag with
          | Some v => v
          | None => JNull
          end
        else JNull
    end.

Record TurnEvaluation := mkEvaluation {
  turn_number : Z;
  customer_message : string;
  representative_response : string;
  raw_text : string;
  parsed : json
}.

Record ConversationState := mkState {
  scenario : string;
  persona_name : string;
  last_customer_message : option string;
  last_evaluated_rep_response : option string;
  turn_index : Z;
  evaluations : list TurnEvaluation
}.

(** [ConversationState(scenario=..., persona_name=...)] *)
Definition fresh_state (scenario persona_name : string) : ConversationState :=
  mkState scenario persona_name None None 0 [].

(** What the oracle is asked. The two prompts are kept as the data their
    templates are filled with; the layout of the text is not modelled. *)
Inductive request :=
| TurnRequest
    (coach_system : string)
    (coach_sections : option (list string * list string * list string * list string))
    (persona_details : option (string * list string * list string))
    (persona_name scenario : string)
    (turn_index : Z)
    (customer_prompt representative_response : string)
| AssessmentRequest
    (instruction : string)
    (achievements_list : list string)
    (persona_name scenario : string)
    (transcript : list json).

Record Candidate := mkCandidate {
  (** [None] when the candidate has no attribute [finish_reason] *)
  finish_reason : option Z
}.

(** The answer of [generate_content]; reading [response.text] may raise. *)
Record GenerateContentResponse := mkResponse {
  candidates : list Candidate;
  text : result string
}.

(** A [GenerativeModel]: the awaited
    [asyncio.wait_for(asyncio.to_thread(model.generate_content, ...))],
    which answers, times out or raises. *)
Definition GenerativeModel := request -> result GenerateContentResponse.

Record GeminiCoach := mkCoach {
  _prompts_repo : PromptsRepository;
  _model : option GenerativeModel;
  _api_key : option string
}.

(** [GeminiCoach.start]; [genai_model] is what [genai.GenerativeModel]
    hands out. *)
Definition start (genai_model : GenerativeModel) (c : GeminiCoach) : result GeminiCoach :=
  if negb (PyStr.truthy_opt (_api_key c))
  then Raise (Error "RuntimeError" "GEMINI_API_KEY is not set")
  else Ok {| _prompts_repo := _prompts_repo c;
             _model := Some genai_model;
             _api_key := _api_key c |}.

(** [GeminiCoach.is_ready] *)
Definition is_ready (c : GeminiCoach) : bool :=
  match _model c with Some _ => true | None => false end.

(** [GeminiCoach.ensure_started] *)
Definition ensure_started (genai_model : GenerativeModel) (c : GeminiCoach)
  : result GeminiCoach :=
  if negb (is_ready c) then start genai_model c else Ok c.

(** [GeminiCoach.stop] *)
Definition stop (c : GeminiCoach) : GeminiCoach :=
  {| _prompts_repo := _prompts_repo c; _model := None; _api_key := _api_key c |}.

(** [GeminiCoach._build_evaluation_prompt] *)
Definition _build_evaluation_prompt (c : GeminiCoach) (state : ConversationState)
    (customer_prompt representative_response : string) : result request :=
  let coach_prompt :=
    find (_prompts_repo c) (Some "coach_agent") None (Some "Main System") in
  coach <-
    match coach_prompt with
    | [] =>
        coach_system <- coach_main_system_prompt (_prompts_repo c) ;;
        Ok (coach_system, None)
    | p :: _ =>
        Ok (get (system (content p)) "",
            Some (get (role_expertise (content p)) [],
                  get (evaluation_criteria (content p)) [],
                  get (behavioral_guidelines (content p)) [],
                  get (coaching_philosophy (content p)) []))
    end ;;
  let persona_prompts :=
    find (_prompts_repo c) (Some "simulation_customer") (Some (scenario state)) None in
  let persona_details :=
    match persona_prompts with
    | p :: _ =>
        Some (get (emotional_state (content p)) "Unknown",
              firstn 2 (get (backstory (content p)) []),
              firstn 2 (get (key_phrases (content p)) []))
    | [] => None
    end in
  Ok (TurnRequest (fst coach) (snd coach) persona_details
        (persona_name state) (scenario state) (turn_index state)
        customer_prompt representative_response).

(** The call [self._model.generate_content(...)] under [wait_for]: on a
    coach that was never started it is an attribute look-up on [None]. *)
Definition generate_content (c : GeminiCoach) (r : request)
  : result GenerateContentResponse :=
  match _model c with
  | Some model => model r
  | None =>
      Raise (Error "AttributeError"
               "'NoneType' object has no attribute 'generate_content'")
  end.

(** [type(v).__name__] *)
Definition type_name (v : json) : string :=
  match v with
  | JNull => "NoneType"
  | JBool _ => "bool"
  | JInt _ => "int"
  | JFloat _ _ | JNaN | JInf _ => "float"
  | JStr _ => "str"
  | JArr _ => "list"
  | JObj _ => "dict"
  end.

(** The log line of a parsed answer evaluates
    [parsed.get('turn_quality_score')], which only a [dict] has. *)
Definition log_score (parsed : json) : result unit :=
  match parsed with
  | JObj _ => Ok tt
  | v => Raise (Error "AttributeError"
                  ("'" ++ type_name v ++ "' object has no attribute 'get'"))
  end.

(** The body of the [try] block of [evaluate_turn]: the raw text and
    what is parsed from it. The token counts that the block also logs
    are integers of the client library; reading them is taken not to
    raise. *)
Definition evaluation_attempt (c : GeminiCoach) (prompt : request)
  : result (string * json) :=
  response <- generate_content c prompt ;;
  raw_text <-
    match candidates response with
    | candidate :: _ =>
        match finish_reason candidate with
        | Some reason =>
            if (reason =? 2)%Z then Ok "Response blocked by safety filters"
            else text response
        | None => text response
        end
    | [] => Ok ""
    end ;;
  let parsed := _safe_json_extract raw_text in
  _ <- (if Json.truthy parsed then log_score parsed else Ok tt) ;;
  Ok (raw_text, parsed).

(** The [try] block with its two handlers. *)
Definition guarded_attempt (c : GeminiCoach) (prompt : request) : string * json :=
  match evaluation_attempt c prompt with
  | Ok r => r
  | Raise TimeoutError => ("Timeout", JNull)
  | Raise e => (str_of_exn e, JNull)
  end.

(** The test that debounces a call. *)
Definition is_duplicate (state : ConversationState)
    (customer_prompt representative_response : string) : bool :=
  Prompts.eqb_opt (last_evaluated_rep_response state) representative_response
  && Prompts.eqb_opt (last_customer_message state) customer_prompt.

(** The three assignments that follow the debounce test. *)
Definition accept_turn (state : ConversationState)
    (customer_prompt representative_response : string) : ConversationState :=
  {| scenario := scenario state;
     persona_name := persona_name state;
     last_customer_message := Some customer_prompt;
     last_evaluated_rep_response := Some representative_response;
     turn_index := turn_index state + 1;
     evaluations := evaluations state |}.

(** [state.evaluations.append(evaluation)] *)
Definition append_evaluation (state : ConversationState) (ev : TurnEvaluation)
  : ConversationState :=
  {| scenario := scenario state;
     persona_name := persona_name state;
     last_customer_message := last_customer_message state;
     last_evaluated_rep_response := last_evaluated_rep_response state;
     turn_index := turn_index state;
     evaluations := evaluations state ++ [ev] |}.

(** [GeminiCoach.evaluate_turn]: what the call returns or raises, and
    the state it leaves. *)
Definition evaluate_turn (c : GeminiCoach) (state : ConversationState)
    (customer_prompt representative_response : string)
  : result (option TurnEvaluation) * ConversationState :=
  if is_duplicate state customer_prompt representative_response
  then (Ok None, state)
  else
    let state1 := accept_turn state customer_prompt representative_response in
    match _build_evaluation_prompt c state1 customer_prompt representative_response with
    | Raise e => (Raise e, state1)
    | Ok prompt =>
        let '(raw_text, parsed) := guarded_attempt c prompt in
        let evaluation :=
          {| turn_number := turn_index state1;
             customer_message := customer_prompt;
             representative_response := representative_response;
             raw_text := raw_text;
             parsed := parsed |} in
        (Ok (Some evaluation), append_evaluation state1 evaluation)
    end.

(** The four fallback documents of [generate_session_assessment], and
    the one for an empty answer. *)
Definition header : string := "# Session Assessment" ++ String (ascii_of_nat 10) (String (ascii_of_nat 10) "").
Definition fallback_no_transcript : string :=
  header ++ "No transcript available for assessment.".
Definition fallback_no_configuration : string :=
  header ++ "Assessment configuration not found.".
Definition fallback_timeout : string :=
  header ++ "Assessment generation timed out.".
Definition fallback_failed (e : exn) : string :=
  header ++ "Assessment generation failed: " ++ str_of_exn e.
Definition fallback_no_response : string :=
  header ++ "Assessment generation failed - no response received.".

(** The body of the [try] block of [generate_session_assessment]. *)
Definition assessment_attempt (c : GeminiCoach) (prompt : request) : result string :=
  response <- generate_content c prompt ;;
  t <- text response ;;
  if PyStr.truthy t then Ok t else Ok fallback_no_response.

(** One round of the loop that builds [conversation_lines], before the
    [try] block: [entry.get] needs a [dict], and [.title()] a role that
    is a text. What is read of the entry: the role as it stands, the
    content and the time stamp; the last two are formatted as they are. *)
Definition read_entry (entry : json) : result (string * json * json) :=
  match entry with
  | JObj d =>
      match dict_get d "role" (JStr "") with
      | JStr role =>
          Ok (role, dict_get d "content" (JStr ""), dict_get d "ts" (JStr ""))
      | v => Raise (Error "AttributeError"
                      ("'" ++ type_name v ++ "' object has no attribute 'title'"))
      end
  | v => Raise (Error "AttributeError"
                  ("'" ++ type_name v ++ "' object has no attribute 'get'"))
  end.

(** The whole loop: the first entry that cannot be read raises. *)
Fixpoint read_entries (transcript : list json)
  : result (list (string * json * json)) :=
  match transcript with
  | [] => Ok []
  | entry :: rest =>
      line <- read_entry entry ;;
      lines <- read_entries rest ;;
      Ok (line :: lines)
  end.

(** An entry that the loop reads: a [dict] whose role, when it has one,
    is a text. *)
Definition readable_entry (entry : json) : bool :=
  match entry with
  | JObj d =>
      match dict_get d "role" (JStr "") with
      | JStr _ => true
      | _ => false
      end
  | _ => false
  end.

(** The prompt that [generate_session_assessment] sends. The
    achievements are texts, so that joining them does not raise. *)
Definition assessment_request (p : Prompt) (state : ConversationState)
    (transcript : list json) : request :=
  AssessmentRequest (get (instruction (content p)) "")
    (get (achievements (content p)) [])
    (persona_name state) (scenario state) transcript.

(** [GeminiCoach.generate_session_assessment] *)
Definition generate_session_assessment (c : GeminiCoach) (state : ConversationState)
    (transcript : list json) : result string :=
  match transcript with
  | [] => Ok fallback_no_transcript
  | _ =>
      match find (_prompts_repo c) (Some "coach_agent") None (Some "Session Assessment") with
      | [] => Ok fallback_no_configuration
      | p :: _ =>
          _ <- read_entries transcript ;;
          let prompt := assessment_request p state transcript in
          match assessment_attempt c prompt with
          | Ok markdown => Ok markdown
          | Raise TimeoutError => Ok fallback_timeout
          | Raise e => Ok (fallback_failed e)
          end
      end
  end.

(** One call of [evaluate_turn], with the coach as it is at that time. *)
Record turn_call := mkTurnCall {
  call_coach : GeminiCoach;
  call_customer_prompt : string;
  call_representative_response : string
}.

(** Successive calls of [evaluate_turn] on one state, as long as each
    returns normally; the first exception ends the sequence. *)
Fixpoint evaluate_turns (state : ConversationState) (calls : list turn_call)
  : result ConversationState :=
  match calls with
  | [] => Ok state
  | k :: ks =>
      match evaluate_turn (call_coach k) state
              (call_customer_prompt k) (call_representative_response k) with
      | (Ok _, state') => evaluate_turns state' ks
      | (Raise e, _) => Raise e
      end
  end.

(** A repository with the coach's main system prompt, its assessment
    prompt and one persona, for the examples below. *)
Definition sample_repo : PromptsRepository :=
  [ mkPrompt "coach-main" "Coach Main System Prompt" "coach_agent" "1.0.0" ""
      (mkContent (Some "You are a coach.") None None None None None None None None None)
      None None;
    mkPrompt "coach-assessment" "Coach Session Assessment" "coach_agent" "1.0.0" ""
      (mkContent None None None None None None None None
         (Some "Assess the session.") (Some ["First Contact"]))
      None None;
    mkPrompt "persona-card" "Lost Card" "simulation_customer" "1.0.0" ""
      (mkContent (Some "You lost your card.") None None None None
         (Some "anxious") None None None None)
      (Some "Sarah Chen") (Some "card") ].

(** Models that time out, fail, or answer a fixed text. *)
Definition timeout_model : GenerativeModel := fun _ => Raise TimeoutError.
Definition answering_model (answer : string) : GenerativeModel :=
  fun _ => Ok (mkResponse [mkCandidate (Some 1%Z)] (Ok answer)).

Definition sample_coach (model : GenerativeModel) : GeminiCoach :=
  mkCoach sample_repo (Some model) (Some "key").

(** A coach whose repository holds the persona only. *)
Definition coach_without_prompt (model : GenerativeModel) : GeminiCoach :=
  mkCoach [nth 2 sample_repo (mkPrompt "" "" "" "" "" empty_content None None)]
    (Some model) (Some "key").

(** The text [{"turn_quality_score": 8}] and the answer that wraps it. *)
Definition score_json : string :=
  "{" ++ String quote "turn_quality_score" ++ String quote ": 8}".
Definition wrapped_score_json : string :=
  "Sure! Here is the JSON: " ++ score_json ++ " Thanks.".

(** A text without either brace. *)
Definition no_brace (text : string) : Prop :=
  PyStr.find "{" text = (-1)%Z /\ PyStr.rfind "}" text = (-1)%Z.

(** What [summarize_conversation] asks: the system text and, for each
    evaluation, its number, the customer's message and the response. *)
Record summary_request := mkSummaryRequest {
  summary_system : string;
  summary_turns : list (Z * string * string)
}.

(** The awaited call of [summarize_conversation] on the model, [None] on
    a coach that was never started. *)
Definition SummaryModel := summary_request -> result GenerateContentResponse.

(** The body of the [try] block of [summarize_conversation]. *)
Definition summary_attempt (model : option SummaryModel) (prompt : summary_request)
  : result json :=
  response <-
    match model with
    | Some generate => generate prompt
    | None => Raise (Error "AttributeError"
                       "'NoneType' object has no attribute 'generate_content'")
    end ;;
  match candidates response with
  | candidate :: _ =>
      match finish_reason candidate with
      | Some reason =>
          if (reason =? 2)%Z then Ok JNull
          else raw <- text response ;; Ok (_safe_json_extract raw)
      | None => raw <- text response ;; Ok (_safe_json_extract raw)
      end
  | [] => Ok JNull
  end.

(** [GeminiCoach.summarize_conversation], on the repository and the
    model of the coach; [JNull] is the [None] it returns. *)
Definition summarize_conversation (repo : PromptsRepository)
    (model : option SummaryModel) (state : ConversationState) : result json :=
  match evaluations state with
  | [] => Ok JNull
  | _ =>
      coach_system <-
        match find repo (Some "coach_agent") None (Some "Main System") with
        | p :: _ => Ok (get (system (content p)) "")
        | [] => coach_main_system_prompt repo
        end ;;
      let prompt :=
        mkSummaryRequest coach_system
          (map (fun ev => (turn_number ev, customer_message ev,
                           representative_response ev))
             (evaluations state)) in
      match summary_attempt model prompt with
      | Ok parsed => Ok parsed
      | Raise _ => Ok JNull
      end
  end.

(** Successive calls of [evaluate_turn] on one state by a caller that
    carries on after an exception, as the handlers of [bot.py] do: what
    each call returned or raised, and the final state. *)
Fixpoint evaluate_each (state : ConversationState) (calls : list turn_call)
  : list (result (option TurnEvaluation)) * ConversationState :=
  match calls with
  | [] => ([], state)
  | k :: ks =>
      let '(r, state') :=
        evaluate_turn (call_coach k) state
          (call_customer_prompt k) (call_representative_response k) in
      let '(rs, state'') := evaluate_each state' ks in
      (r :: rs, state'')
  end.

(** The evaluations among the results of a sequence of calls. *)
Definition returned_evaluations (rs : list (result (option TurnEvaluation)))
  : list TurnEvaluation :=
  flat_map (fun r => match r with Ok (Some ev) => [ev] | _ => [] end) rs.

(** The number of calls that raised. *)
Definition raised (rs : list (result (option TurnEvaluation))) : nat :=
  length (filter (fun r => match r with Raise _ => true | Ok _ => false end) rs).

(** A model whose answer is stopped by the safety filters (finish reason
    2); reading its text raises. *)
Definition blocked_model : GenerativeModel :=
  fun _ => Ok (mkResponse [mkCandidate (Some 2%Z)]
                 (Raise (Error "ValueError" "no valid part"))).

(** A model that answers without any candidate. *)
Definition silent_model : GenerativeModel :=
  fun _ => Ok (mkResponse [] (Raise (Error "ValueError" "no valid part"))).

(** The numbers of the evaluations of a state: increasing, and between 1
    and [turn_index]. *)
Definition numbered (st : ConversationState) : Prop :=
  StronglySorted Z.lt (map turn_number (evaluations st))
  /\ Forall (fun ev => (1 <= turn_number ev <= turn_index st)%Z) (evaluations st)
  /\ (0 <= turn_index st)%Z.


End Coach.

(** ** bot.py: the handler of final transcript updates *)
Module Bot.
Import Json.

(** The objects that [run_bot] creates and its handlers share. *)
Record Session := mkSession {
  session_logger : Logger.SessionLogger;
  conversation_aggregator : Aggregator.ConversationAggregator;
  conv_state : Coach.ConversationState;
  coach : Coach.GeminiCoach
}.

(** What the surroundings supply while one message is handled: the clock
    readings of the two appends, and the model that [start] would obtain. *)
Record Env := mkEnv {
  transcript_clock : Logger.Clock;
  coach_turn_clock : Logger.Clock;
  genai_model : Coach.GenerativeModel
}.

(** One message of a [TranscriptionUpdateFrame]. *)
Record Message := mkMessage {
  role : string;
  content : string
}.

(** The body of the [try] block of [on_transcript_update]; on an
    exception the handler keeps what was changed before it. *)
Definition evaluate_and_record (env : Env) (s : Session)
    (customer_prompt representative_response : string) : Session :=
  match Coach.ensure_started (genai_model env) (coach s) with
  | Raise _ => s
  | Ok coach1 =>
      let '(eval_res, state1) :=
        Coach.evaluate_turn coach1 (conv_state s)
          customer_prompt representative_response in
      let logger1 :=
        match eval_res with
        | Ok (Some ev) =>
            if Json.truthy (Coach.parsed ev) then
              Logger.append_coach_turn (session_logger s) (coach_turn_clock env)
                (Coach.turn_index state1) customer_prompt
                representative_response (Coach.parsed ev)
            else session_logger s
        | Ok None => session_logger s
        | Raise _ => session_logger s
        end in
      {| session_logger := logger1;
         conversation_aggregator := conversation_aggregator s;
         conv_state := state1;
         coach := coach1 |}
  end.

(** One round of the loop of [on_transcript_update]. *)
Definition handle_message (s : Session) (em : Env * Message) : Session :=
  let '(env, m) := em in
  let logger1 :=
    Logger.append_transcript (session_logger s) (transcript_clock env)
      (role m) (content m) false in
  let '(turn_pair, aggregator1) :=
    Aggregator.add_message (conversation_aggregator s) (role m) (content m) in
  let s1 :=
    {| session_logger := logger1;
       conversation_aggregator := aggregator1;
       conv_state := conv_state s;
       coach := coach s |} in
  match turn_pair with
  | Some (customer_prompt, representative_response) =>
      evaluate_and_record env s1 customer_prompt representative_response
  | None => s1
  end.

(** [on_transcript_update] over the messages of the frames it receives,
    each with what the surroundings supply while it is handled. *)
Definition on_transcript_update (s : Session) (ms : list (Env * Message)) : Session :=
  fold_left handle_message ms s.

(** The session as [run_bot] sets it up. *)
Definition new_session (scenario stamp persona_name : string)
    (c : Coach.GeminiCoach) : Session :=
  {| session_logger := Logger.init scenario stamp;
     conversation_aggregator := Aggregator.init;
     conv_state := Coach.fresh_state scenario persona_name;
     coach := c |}.

(** What a per-turn record says, apart from its time stamps. *)
Definition recorded_turn (ev : Coach.TurnEvaluation) : Z * string * string * json :=
  (Coach.turn_number ev, Coach.customer_message ev,
   Coach.representative_response ev, Coach.parsed ev).

(** The same reading of an entry of [_coach_turns]. *)
Definition coach_turn_fields (entry : json) : option (Z * string * string * json) :=
  match entry with
  | JObj [(_, _); (_, _); (_, JInt turn);
          (_, JObj [(_, JStr customer); (_, JStr representative)]);
          (_, coaching)] =>
      Some (turn, customer, representative, coaching)
  | _ => None
  end.

(** The surroundings of the examples: a fixed clock and a given model. *)
Definition sample_env (model : Coach.GenerativeModel) : Env :=
  mkEnv (Logger.mkClock 1000 "10:00:00 01-01-2025")
        (Logger.mkClock 2000 "10:00:01 01-01-2025") model.

(** What the final-only log says of its entries, apart from time stamps. *)
Definition recorded_messages (s : Session) : list (string * string) :=
  map (fun t => (Logger.role t, Logger.content t))
    (Logger._transcript (session_logger s)).

(** The per-turn records of a session, read back. *)
Definition recorded_turns (s : Session) : list (option (Z * string * string * json)) :=
  map coach_turn_fields (Logger._coach_turns (session_logger s)).

(** The evaluations of a session whose [parsed] is true. *)
Definition parsed_evaluations (s : Session) : list Coach.TurnEvaluation :=
  filter (fun ev => Json.truthy (Coach.parsed ev))
    (Coach.evaluations (conv_state s)).

(** [filtered_process_frame] on an [InterimTranscriptionFrame]: a text
    that is not empty is logged as an interim entry of the user; the
    frame is then passed on without reaching the transcript handler. *)
Definition on_interim_frame (s : Session) (clock : Logger.Clock) (text : string)
  : Session :=
  if PyStr.truthy text then
    {| session_logger :=
         Logger.append_transcript (session_logger s) clock "user" text true;
       conversation_aggregator := conversation_aggregator s;
       conv_state := conv_state s;
       coach := coach s |}
  else s.

(** What reaches the session while the client is connected. *)
Inductive event :=
| InterimFrame (clock : Logger.Clock) (text : string)
| TranscriptUpdate (em : Env * Message).

Definition handle_event (s : Session) (ev : event) : Session :=
  match ev with
  | InterimFrame clock text => on_interim_frame s clock text
  | TranscriptUpdate em => handle_message s em
  end.

Definition run_session (s : Session) (evs : list event) : Session :=
  fold_left handle_event evs s.

(** The final messages among the events. *)
Definition final_messages (evs : list event) : list (Env * Message) :=
  flat_map (fun ev => match ev with
                      | TranscriptUpdate em => [em]
                      | InterimFrame _ _ => []
                      end) evs.

(** The interim frames among the events that carry a text. *)
Definition interim_texts (evs : list event) : list string :=
  flat_map (fun ev => match ev with
                      | InterimFrame _ text => if PyStr.truthy text then [text] else []
                      | TranscriptUpdate _ => []
                      end) evs.

Definition with_logger (s : Session) (l : Logger.SessionLogger) : Session :=
  {| session_logger := l;
     conversation_aggregator := conversation_aggregator s;
     conv_state := conv_state s;
     coach := coach s |}.

(** Everything of a session but its interim-inclusive log and the file
    of that log. *)
Definition final_view (s : Session) :=
  (conversation_aggregator s, conv_state s, coach s,
   (Logger._session_id (session_logger s), Logger._scenario (session_logger s),
    Logger._transcript (session_logger s), Logger._coach_turns (session_logger s)),
   (Logger.transcript_file (session_logger s),
    Logger.per_turn_file (session_logger s),
    Logger.session_eval_file (session_logger s))).

(** The first step of [on_client_disconnected]: the pending turn is
    flushed and, when there is one, evaluated and recorded as in
    [on_transcript_update]. *)
Definition flush_and_evaluate (env : Env) (s : Session) : Session :=
  let '(final_turn, aggregator1) :=
    Aggregator.flush_pending_turn (conversation_aggregator s) in
  let s1 :=
    {| session_logger := session_logger s;
       conversation_aggregator := aggregator1;
       conv_state := conv_state s;
       coach := coach s |} in
  match final_turn with
  | Some (customer_prompt, representative_response) =>
      evaluate_and_record env s1 customer_prompt representative_response
  | None => s1
  end.

(** The last step: when the transcript has entries, the assessment is
    generated and written; an exception leaves what was done before. *)
Definition assess_and_write (env : Env) (s : Session) : Session :=
  match Logger.get_transcript_for_assessment (session_logger s) with
  | [] => s
  | transcript =>
      match Coach.ensure_started (genai_model env) (coach s) with
      | Raise _ => s
      | Ok coach1 =>
          let s1 :=
            {| session_logger := session_logger s;
               conversation_aggregator := conversation_aggregator s;
               conv_state := conv_state s;
               coach := coach1 |} in
          match Coach.generate_session_assessment coach1 (conv_state s) transcript with
          | Ok assessment_markdown =>
              with_logger s1
                (Logger.write_session_eval (session_logger s1) assessment_markdown)
          | Raise _ => s1
          end
      end
  end.

(** [on_client_disconnected], up to the cancellation of the task: the
    pending turn is flushed and evaluated, the transcript is written, and
    the assessment is generated and written. *)
Definition on_client_disconnected (env : Env) (s : Session) : Session :=
  let s1 := flush_and_evaluate env s in
  let s2 := with_logger s1 (Logger.snapshot_transcript (session_logger s1)) in
  assess_and_write env s2.

(** A coach that [ensure_started] can make ready. *)
Definition startable (c : Coach.GeminiCoach) : Prop :=
  Coach.is_ready c = true \/ PyStr.truthy_opt (Coach._api_key c) = true.

End Bot.

(** ** feedback_viewer.py: the scenario shown for a session *)
Module Viewer.
Import Json.



End Viewer.

(** ** guardrail_service.py *)
Module Guardrail.
Import Json.

(** [GuardrailService.patterns], once loaded. *)
Record Patterns := mkPatterns {
  off_topic : list string;
  banking_keywords : list string;
  reminders : list (string * string);
  version : string
}.

(** The patterns before any are loaded. *)
Definition no_patterns : Patterns := mkPatterns [] [] [] "unknown".

Definition default_reminder : string :=
  "Stay in character! You're in a crisis and need help with your banking issue NOW!".

(** [reminders.get(scenario, default)] *)
Definition reminder_for (pt : Patterns) (scenario : string) : string :=
  match List.find (fun kv => fst kv =? scenario) (reminders pt) with
  | Some kv => snd kv
  | None => default_reminder
  end.

(** [GuardrailService.check_off_topic] *)
Definition check_off_topic (pt : Patterns) (message scenario : string)
  : bool * option string :=
  if negb (PyStr.truthy message) then (false, None)
  else
    let msg_lower := PyStr.lower message in
    let has_banking_context :=
      existsb (fun keyword => PyStr.contains keyword msg_lower)
        (banking_keywords pt) in
    let is_off_topic :=
      existsb (fun pattern => PyStr.contains pattern msg_lower) (off_topic pt)
      && negb has_banking_context in
    if is_off_topic then (true, Some (reminder_for pt scenario))
    else (false, None).





(** The patterns and keywords that are written in lower case. *)
Definition lower_case_only (pt : Patterns) : Patterns :=
  {| off_topic := filter (fun p => PyStr.lower p =? p) (off_topic pt);
     banking_keywords := filter (fun k => PyStr.lower k =? k) (banking_keywords pt);
     reminders := reminders pt;
     version := version pt |}.

End Guardrail.

(** * Properties *)

(** ** The aggregator *)
Module AggregatorFacts.
Import Aggregator.

Lemma has_pending_turn_prompt a :
  has_pending_turn a = true ->
  exists p, pending_customer_prompt a = Some p /\ p <> "" /\ pending_rep_fragments a <> [].
Proof.
  unfold has_pending_turn. intros H.
  apply andb_true_iff in H. destruct H as [Hp Hf].
  destruct (pending_customer_prompt a) as [p|]; [|discriminate].
  exists p. repeat split.
  - intros ->. discriminate.
  - intros E. rewrite E in Hf. discriminate.
Qed.

(** From any state, a flush and a customer message that passes the blank
    guard return the same pair. *)
Lemma flush_as_next_customer_message a content :
  is_blank content = false ->
  fst (flush_pending_turn a) = fst (add_message a customer content).
Proof.
  intros Hb. unfold flush_pending_turn, add_message, customer.
  rewrite Hb. cbn [String.eqb Ascii.eqb Bool.eqb].
  destruct (has_pending_turn a) eqn:Hp; [|reflexivity].
  destruct (pending_customer_prompt a); reflexivity.
Qed.

(** C1, as amended: after any sequence of events, a flush returns the same
    pair as a following customer message whose content is neither empty
    nor only white space; that pair is the pending prompt with the
    aggregated fragments when both are present, and nothing otherwise. *)
Theorem flush_next_trigger_equivalence :
  forall (evs : list (string * string)) (content : string),
    is_blank content = false ->
    let a := snd (feed init evs) in
    fst (flush_pending_turn a) = fst (add_message a customer content)
    /\ (has_pending_turn a = true ->
        exists p, pending_customer_prompt a = Some p
                  /\ fst (flush_pending_turn a)
                     = Some (p, aggregate (pending_rep_fragments a)))
    /\ (has_pending_turn a = false -> fst (flush_pending_turn a) = None).
Proof.
  intros evs content Hb a. split; [|split].
  - now apply flush_as_next_customer_message.
  - intros Hp. destruct (has_pending_turn_prompt a Hp) as (p & Ep & _).
    exists p. split; [exact Ep|].
    unfold flush_pending_turn. rewrite Hp, Ep. reflexivity.
  - intros Hp. unfold flush_pending_turn. now rewrite Hp.
Qed.

Lemma flush_next_trigger_equivalence_witness :
  let a := snd (feed init [(customer, "Hi"); (representative, "Ok")]) in
  fst (flush_pending_turn a) = fst (add_message a customer "Thanks")
  /\ fst (flush_pending_turn a) = Some ("Hi", "Ok").
Proof.
  destruct (flush_next_trigger_equivalence
              [(customer, "Hi"); (representative, "Ok")] "Thanks" eq_refl)
    as (H1 & _ & _).
  split; [exact H1 | reflexivity].
Defined.

(** C1, as stated, fails: a customer message of one space is not empty,
    yet it is dropped by the blank guard and returns nothing, while a
    flush at the same point returns the pending turn. *)
Lemma flush_differs_from_whitespace_message :
  ~ (forall (evs : list (string * string)) (content : string),
       content <> "" ->
       fst (flush_pending_turn (snd (feed init evs)))
       = fst (add_message (snd (feed init evs)) customer content)).
Proof.
  intros H.
  specialize (H [(customer, "Hi"); (representative, "Ok")] " ").
  assert (Hne : " " <> "") by discriminate.
  specialize (H Hne). vm_compute in H. discriminate.
Qed.

(** C2: the four events of the scenario complete exactly one turn, on the
    fourth event; the prompt of that event is then pending with no
    fragment, and a flush returns nothing and changes nothing. *)
Theorem end_to_end_scenario :
  let events := [(customer, "Hello, I lost my card");
                 (representative, "Okay");
                 (representative, "Let me help");
                 (customer, "Thanks, what now")] in
  let '(returned, a) := feed init events in
  returned = [None; None; None; Some ("Hello, I lost my card", "Okay Let me help")]
  /\ completed_turns a
     = [{| customer_prompt := Some "Hello, I lost my card";
           representative_responses := ["Okay"; "Let me help"] |}]
  /\ map get_aggregated_representative_response (completed_turns a)
     = ["Okay Let me help"]
  /\ get_turn_count a = 1%Z
  /\ pending_customer_prompt a = Some "Thanks, what now"
  /\ pending_rep_fragments a = []
  /\ flush_pending_turn a = (None, a).
Proof.
  vm_compute. repeat split.
Qed.

Lemma step_keeps_turns_well_formed a o :
  Forall well_formed_turn (completed_turns a) ->
  Forall well_formed_turn (completed_turns (snd (step a o))).
Proof.
  intros Ha.
  assert (Hnew : has_pending_turn a = true ->
                 forall p, pending_customer_prompt a = Some p ->
                 Forall well_formed_turn
                   (completed_turns a ++
                    [{| customer_prompt := Some p;
                        representative_responses := pending_rep_fragments a |}])).
  { intros Hp p Ep. apply Forall_app. split; [exact Ha|].
    constructor; [|constructor].
    destruct (has_pending_turn_prompt a Hp) as (p' & Ep' & Hne & Hf).
    rewrite Ep in Ep'. injection Ep' as <-.
    split; [exists p; split; [reflexivity | exact Hne] | exact Hf]. }
  destruct o as [role content| |]; cbn [step].
  - unfold add_message.
    destruct (is_blank content); [exact Ha|].
    destruct (role =? "assistant").
    + destruct (has_pending_turn a) eqn:Hp; [|exact Ha].
      destruct (pending_customer_prompt a) as [p|] eqn:Ep; [|exact Ha].
      cbn. now apply Hnew.
    + destruct (role =? "user"); [|exact Ha].
      destruct (negb _); exact Ha.
  - unfold flush_pending_turn.
    destruct (has_pending_turn a) eqn:Hp; [|exact Ha].
    destruct (pending_customer_prompt a) as [p|] eqn:Ep; [|exact Ha].
    cbn. now apply Hnew.
  - constructor.
Qed.

Lemma run_ops_keeps_turns_well_formed os : forall a,
  Forall well_formed_turn (completed_turns a) ->
  Forall well_formed_turn (completed_turns (run_ops a os)).
Proof.
  induction os as [|o os IH]; intros a Ha; [exact Ha|].
  cbn. apply IH. now apply step_keeps_turns_well_formed.
Qed.

(** C7: whatever calls are made on a new aggregator, every turn in
    [completed_turns] has a prompt that is not empty and at least one
    fragment, and [is_complete] holds of it. *)
Theorem completed_turns_well_formed :
  forall (os : list op) (t : ConversationTurn),
    In t (completed_turns (run_ops init os)) ->
    well_formed_turn t /\ is_complete t = true.
Proof.
  intros os t Hin.
  assert (Hw : well_formed_turn t).
  { pose proof (run_ops_keeps_turns_well_formed os init (Forall_nil _)) as HF.
    rewrite Forall_forall in HF. now apply HF. }
  split; [exact Hw|].
  destruct Hw as ((p & Ep & Hne) & Hf). unfold is_complete.
  rewrite Ep. destruct p; [congruence|].
  destruct (representative_responses t); [congruence|reflexivity].
Qed.

Lemma completed_turns_well_formed_witness :
  well_formed_turn {| customer_prompt := Some "Hi";
                      representative_responses := ["Ok"] |}.
Proof.
  apply (completed_turns_well_formed
           [AddMessage customer "Hi"; AddMessage representative "Ok";
            FlushPendingTurn]).
  vm_compute. left. reflexivity.
Defined.

End AggregatorFacts.

(** ** The session logger *)
Module LoggerFacts.
Import Json Logger.
Local Open Scope list_scope.







End LoggerFacts.

(** ** The coach: extraction of the answer *)
Module ExtractFacts.
Import Json Prompts Coach.
Local Open Scope list_scope.

(** The three stages of [_safe_json_extract] on a text that is not empty:
    the whole text when it decodes; otherwise the part from the first
    opening brace to the last closing brace, when the first comes before
    the second; otherwise nothing. *)
Lemma safe_json_extract_stages (text : string) :
  text <> ""%string ->
  (forall v, json_loads text = Some v -> _safe_json_extract text = v)
  /\ (json_loads text = None ->
      (PyStr.find "{" text <> -1 /\ PyStr.rfind "}" text <> -1
       /\ PyStr.find "{" text < PyStr.rfind "}" text)%Z ->
      _safe_json_extract text
      = match json_loads (PyStr.slice text (PyStr.find "{" text)
                            (PyStr.rfind "}" text + 1)) with
        | Some v => v
        | None => JNull
        end)
  /\ (json_loads text = None -> no_brace text -> _safe_json_extract text = JNull).
Proof.
  intros Hne. unfold _safe_json_extract.
  destruct text as [|c text]; [congruence|]. cbn [PyStr.truthy negb].
  split; [|split].
  - intros v ->. reflexivity.
  - intros -> (Hs & He & Hlt).
    apply Z.eqb_neq in Hs, He. apply Z.ltb_lt in Hlt.
    rewrite Hs, He, Hlt. reflexivity.
  - intros -> [Hs _]. rewrite Hs. reflexivity.
Qed.

(** C4: the wrapped answer of the example is decoded from its braces.
    The text [8] has no brace, yet it decodes as a whole and the integer
    is returned where the function promises an object or nothing; in
    [evaluate_turn] the log line of a parsed answer then fails on it, and
    the handler replaces the raw text by the error. The text [0] is
    returned as the integer too and stays in [parsed]. *)
Theorem safe_json_extract_scalar_text :
  _safe_json_extract wrapped_score_json = JObj [("turn_quality_score"%string, JInt 8)]
  /\ json_loads wrapped_score_json = None
  /\ (no_brace "8" /\ _safe_json_extract "8" = JInt 8)
  /\ (no_brace "0" /\ _safe_json_extract "0" = JInt 0)
  /\ (forall st cp rr,
        is_duplicate st cp rr = false ->
        exists ev,
          fst (evaluate_turn (sample_coach (answering_model "8")) st cp rr)
          = Ok (Some ev)
          /\ raw_text ev = "'int' object has no attribute 'get'"%string
          /\ parsed ev = JNull)
  /\ (forall st cp rr,
        is_duplicate st cp rr = false ->
        exists ev,
          fst (evaluate_turn (sample_coach (answering_model "0")) st cp rr)
          = Ok (Some ev)
          /\ raw_text ev = "0"%string
          /\ parsed ev = JInt 0).
Proof.
  split; [vm_compute; reflexivity|].
  split; [vm_compute; reflexivity|].
  split; [vm_compute; repeat split|].
  split; [vm_compute; repeat split|].
  split; intros st cp rr Hd; unfold evaluate_turn; rewrite Hd;
    eexists; (split; [reflexivity|]); split; reflexivity.
Qed.

Lemma safe_json_extract_scalar_text_witness :
  exists ev,
    fst (evaluate_turn (sample_coach (answering_model "0"))
           (fresh_state "card" "Sarah Chen") "Hi" "Ok")
    = Ok (Some ev)
    /\ raw_text ev = "0"%string
    /\ parsed ev = JInt 0.
Proof.
  destruct safe_json_extract_scalar_text as (_ & _ & _ & _ & _ & H).
  apply (H (fresh_state "card" "Sarah Chen") "Hi"%string "Ok"%string).
  reflexivity.
Defined.

End ExtractFacts.

(** ** The coach: evaluation of a turn *)
Module CoachFacts.
Import Json Prompts Coach.
Local Open Scope list_scope.

Lemma evaluate_turn_duplicate c st cp rr :
  is_duplicate st cp rr = true ->
  evaluate_turn c st cp rr = (Ok None, st).
Proof. intros H. unfold evaluate_turn. now rewrite H. Qed.

(** A call that is not debounced and returns normally. *)
Lemma evaluate_turn_accepted c st cp rr r st1 :
  is_duplicate st cp rr = false ->
  evaluate_turn c st cp rr = (Ok r, st1) ->
  exists ev,
    r = Some ev
    /\ st1 = append_evaluation (accept_turn st cp rr) ev
    /\ turn_number ev = (turn_index st + 1)%Z
    /\ customer_message ev = cp
    /\ representative_response ev = rr.
Proof.
  intros Hd. unfold evaluate_turn. rewrite Hd.
  destruct (_build_evaluation_prompt c (accept_turn st cp rr) cp rr) as [prompt|e];
    [|discriminate].
  destruct (guarded_attempt c prompt) as [raw p].
  intros H. injection H as <- <-.
  eexists. repeat split.
Qed.

(** The two ways a call that is not debounced ends. *)
Lemma evaluate_turn_not_duplicate c st cp rr :
  is_duplicate st cp rr = false ->
  (exists e, evaluate_turn c st cp rr = (Raise e, accept_turn st cp rr))
  \/ (exists ev,
        evaluate_turn c st cp rr
        = (Ok (Some ev), append_evaluation (accept_turn st cp rr) ev)
        /\ turn_number ev = (turn_index st + 1)%Z
        /\ customer_message ev = cp
        /\ representative_response ev = rr).
Proof.
  intros Hd. unfold evaluate_turn. rewrite Hd.
  destruct (_build_evaluation_prompt c (accept_turn st cp rr) cp rr)
    as [prompt|e].
  - right. destruct (guarded_attempt c prompt) as [raw p].
    eexists. repeat split.
  - left. now exists e.
Qed.

(** The three ways a call of [evaluate_turn] ends. *)
Lemma evaluate_turn_cases c st cp rr :
  evaluate_turn c st cp rr = (Ok None, st)
  \/ (exists e, evaluate_turn c st cp rr = (Raise e, accept_turn st cp rr))
  \/ (exists ev,
        evaluate_turn c st cp rr
        = (Ok (Some ev), append_evaluation (accept_turn st cp rr) ev)
        /\ turn_number ev = (turn_index st + 1)%Z
        /\ customer_message ev = cp
        /\ representative_response ev = rr).
Proof.
  destruct (is_duplicate st cp rr) eqn:Hd.
  - left. now apply evaluate_turn_duplicate.
  - right. now apply evaluate_turn_not_duplicate.
Qed.

Lemma is_duplicate_after_accept st cp rr ev :
  is_duplicate (append_evaluation (accept_turn st cp rr) ev) cp rr = true.
Proof.
  unfold is_duplicate. cbn. now rewrite !String.eqb_refl.
Qed.

(** The state after an accepted call holds the pair, whether the call
    returned or raised. *)
Lemma is_duplicate_after_raise st cp rr :
  is_duplicate (accept_turn st cp rr) cp rr = true.
Proof.
  unfold is_duplicate. cbn. now rewrite !String.eqb_refl.
Qed.

(** With a main system prompt in the repository the prompt is built. *)
Lemma build_evaluation_prompt_ok c st cp rr p ps :
  find (_prompts_repo c) (Some "coach_agent"%string) None
    (Some "Main System"%string) = p :: ps ->
  exists prompt, _build_evaluation_prompt c st cp rr = Ok prompt.
Proof.
  intros Hfind. unfold _build_evaluation_prompt. rewrite Hfind. cbn [bind].
  eexists. reflexivity.
Qed.

(** C3, as amended: on a state whose last recorded pair is not the given
    one, and with a main system prompt in the repository of the coach,
    two successive calls with that pair yield one evaluation followed by
    nothing: the first call returns an evaluation, appends it and
    increments [turn_index] by one; the second returns nothing and leaves
    the state as it is. *)
Theorem debounce_exactness :
  forall (c1 c2 : GeminiCoach) (st : ConversationState) (cp rr : string)
         (p : Prompt) (ps : list Prompt),
    is_duplicate st cp rr = false ->
    find (_prompts_repo c1) (Some "coach_agent"%string) None
      (Some "Main System"%string) = p :: ps ->
    exists (ev : TurnEvaluation) (st1 : ConversationState),
      evaluate_turn c1 st cp rr = (Ok (Some ev), st1)
      /\ evaluations st1 = evaluations st ++ [ev]
      /\ turn_index st1 = (turn_index st + 1)%Z
      /\ evaluate_turn c2 st1 cp rr = (Ok None, st1).
Proof.
  intros c1 c2 st cp rr p ps Hd Hfind.
  destruct (build_evaluation_prompt_ok c1 (accept_turn st cp rr) cp rr p ps Hfind)
    as (prompt & Hp).
  destruct (evaluate_turn_not_duplicate c1 st cp rr Hd)
    as [(e & E)|(ev & E & _)].
  - exfalso. unfold evaluate_turn in E. rewrite Hd, Hp in E.
    destruct (guarded_attempt c1 prompt). discriminate.
  - exists ev, (append_evaluation (accept_turn st cp rr) ev).
    split; [exact E|]. split; [reflexivity|]. split; [reflexivity|].
    apply evaluate_turn_duplicate, is_duplicate_after_accept.
Qed.

Lemma debounce_exactness_witness :
  exists (ev : TurnEvaluation) (st1 : ConversationState),
    evaluate_turn (sample_coach timeout_model)
      (fresh_state "card" "Sarah Chen") "Hi" "Ok" = (Ok (Some ev), st1)
    /\ evaluations st1 = [ev]
    /\ turn_index st1 = 1%Z
    /\ evaluate_turn (sample_coach (answering_model score_json)) st1 "Hi" "Ok"
       = (Ok None, st1).
Proof.
  exact (debounce_exactness (sample_coach timeout_model)
           (sample_coach (answering_model score_json))
           (fresh_state "card" "Sarah Chen") "Hi"%string "Ok"%string
           _ _ eq_refl eq_refl).
Defined.

(** C3, as stated, fails on a state that already holds the pair: after
    one accepted call, two further calls with the same pair both return
    nothing and [turn_index] stays as it is. *)
Lemma debounce_on_recorded_pair :
  ~ (forall (c : GeminiCoach) (st : ConversationState) (cp rr : string),
       let '(r1, st1) := evaluate_turn c st cp rr in
       let '(r2, st2) := evaluate_turn c st1 cp rr in
       (exists ev, r1 = Ok (Some ev))
       /\ r2 = Ok None
       /\ turn_index st2 = (turn_index st + 1)%Z).
Proof.
  intros H.
  specialize (H (sample_coach timeout_model)
                (snd (evaluate_turn (sample_coach timeout_model)
                        (fresh_state "card" "Sarah Chen") "Hi" "Ok"))
                "Hi"%string "Ok"%string).
  vm_compute in H. destruct H as ((ev & Hev) & _). discriminate.
Qed.

Lemma prefix_app_l a b : forall s,
  prefix (a ++ b)%string s = true -> prefix a s = true.
Proof.
  induction a as [|x a IH]; intros s H; [now destruct s|].
  destruct s as [|y s]; [discriminate|].
  cbn [append prefix] in *.
  destruct (ascii_dec x y); [now apply IH | discriminate].
Qed.

Lemma contains_app_l a b s :
  PyStr.contains (a ++ b)%string s = true -> PyStr.contains a s = true.
Proof.
  induction s as [|y s IH]; cbn [PyStr.contains]; intros H;
    apply orb_true_iff in H; apply orb_true_iff; destruct H as [H|H].
  - left. now apply prefix_app_l in H.
  - discriminate.
  - left. now apply prefix_app_l in H.
  - right. now apply IH.
Qed.

Lemma filter_nil_weaken {A} (f g : A -> bool) (l : list A) :
  (forall x, g x = true -> f x = true) ->
  filter f l = [] -> filter g l = [].
Proof.
  intros Hfg. induction l as [|x l IH]; [reflexivity|].
  cbn. destruct (f x) eqn:Hf; [discriminate|]. intros Hl.
  destruct (g x) eqn:Hg; [|now apply IH].
  apply Hfg in Hg. congruence.
Qed.

(** When no prompt of the coach has a name with "main system" in it, the
    fall-back to [coach_main_system_prompt] finds none either. *)
Lemma fallback_prompt_missing (repo : PromptsRepository) :
  find repo (Some "coach_agent"%string) None (Some "Main System"%string) = [] ->
  coach_main_system_prompt repo
  = Raise (KeyError "No coach main system prompt found").
Proof.
  unfold coach_main_system_prompt, find. cbn [PyStr.truthy].
  intros H.
  erewrite (filter_nil_weaken _
              (fun p => PyStr.contains (PyStr.lower "Main System Prompt")
                          (PyStr.lower (name p))));
    [reflexivity| |exact H].
  intros p Hp. cbv beta in *.
  change (PyStr.lower "Main System Prompt")
    with (PyStr.lower "Main System" ++ " prompt")%string in Hp.
  now apply contains_app_l in Hp.
Qed.

(** C5: a call that is not debounced, on a coach whose repository has no
    main system prompt, raises the [KeyError] of the fall-back to its
    caller, after the state has been advanced; the handlers of the [try]
    block do not cover the assembly of the prompt. *)
Theorem evaluate_turn_raises_without_main_prompt :
  forall (c : GeminiCoach) (st : ConversationState) (cp rr : string),
    is_duplicate st cp rr = false ->
    find (_prompts_repo c) (Some "coach_agent"%string) None
      (Some "Main System"%string) = [] ->
    evaluate_turn c st cp rr
    = (Raise (KeyError "No coach main system prompt found"),
       accept_turn st cp rr).
Proof.
  intros c st cp rr Hd Hfind. unfold evaluate_turn. rewrite Hd.
  unfold _build_evaluation_prompt. rewrite Hfind.
  rewrite (fallback_prompt_missing _ Hfind). reflexivity.
Qed.

Lemma evaluate_turn_raises_without_main_prompt_witness :
  evaluate_turn (coach_without_prompt timeout_model)
    (fresh_state "card" "Sarah Chen") "Hi" "Ok"
  = (Raise (Error "KeyError" "'No coach main system prompt found'"),
     mkState "card" "Sarah Chen" (Some "Hi"%string) (Some "Ok"%string) 1 []).
Proof.
  exact (evaluate_turn_raises_without_main_prompt
           (coach_without_prompt timeout_model)
           (fresh_state "card" "Sarah Chen") "Hi"%string "Ok"%string
           eq_refl eq_refl).
Defined.

(** Once the prompt is assembled, a failure of the oracle call is
    absorbed: a time-out gives the text "Timeout", any other exception
    its description, and nothing is parsed. *)
Lemma oracle_failure_absorbed c st cp rr prompt :
  is_duplicate st cp rr = false ->
  _build_evaluation_prompt c (accept_turn st cp rr) cp rr = Ok prompt ->
  (generate_content c prompt = Raise TimeoutError ->
   exists ev,
     evaluate_turn c st cp rr
     = (Ok (Some ev), append_evaluation (accept_turn st cp rr) ev)
     /\ raw_text ev = "Timeout"%string /\ parsed ev = JNull)
  /\ (forall class_name msg,
        generate_content c prompt = Raise (Error class_name msg) ->
        exists ev,
          evaluate_turn c st cp rr
          = (Ok (Some ev), append_evaluation (accept_turn st cp rr) ev)
          /\ raw_text ev = msg /\ parsed ev = JNull).
Proof.
  intros Hd Hp. split.
  - intros Hg. unfold evaluate_turn. rewrite Hd, Hp.
    unfold guarded_attempt, evaluation_attempt. rewrite Hg. cbn.
    eexists. repeat split.
  - intros k msg Hg. unfold evaluate_turn. rewrite Hd, Hp.
    unfold guarded_attempt, evaluation_attempt. rewrite Hg. cbn.
    eexists. repeat split.
Qed.

Lemma evaluate_turn_keeps_count c st cp rr r st1 :
  turn_index st = Z.of_nat (length (evaluations st)) ->
  evaluate_turn c st cp rr = (Ok r, st1) ->
  turn_index st1 = Z.of_nat (length (evaluations st1)).
Proof.
  intros Hinv H.
  destruct (is_duplicate st cp rr) eqn:Hd.
  - rewrite (evaluate_turn_duplicate _ _ _ _ Hd) in H.
    injection H as _ <-. exact Hinv.
  - destruct (evaluate_turn_accepted _ _ _ _ _ _ Hd H) as (ev & _ & -> & _).
    cbn. rewrite length_app. cbn. lia.
Qed.

Lemma evaluate_turns_keep_count calls : forall st st',
  turn_index st = Z.of_nat (length (evaluations st)) ->
  evaluate_turns st calls = Ok st' ->
  turn_index st' = Z.of_nat (length (evaluations st')).
Proof.
  induction calls as [|k ks IH]; intros st st' Hinv H; cbn in H.
  - injection H as <-. exact Hinv.
  - destruct (evaluate_turn (call_coach k) st (call_customer_prompt k)
                (call_representative_response k)) as [[r|e] st1] eqn:E;
      [|discriminate].
    apply (IH st1); [|exact H].
    eapply evaluate_turn_keeps_count; eassumption.
Qed.

(** C10: after any sequence of calls that return normally on a new state,
    [turn_index] is the number of evaluations; a call that returns
    normally either is debounced, returns nothing and leaves the state,
    or appends exactly the evaluation it returns, whose [turn_number] is
    the incremented [turn_index]. *)
Theorem bookkeeping_invariant :
  forall (scenario persona_name : string) (calls : list turn_call)
         (st : ConversationState),
    evaluate_turns (fresh_state scenario persona_name) calls = Ok st ->
    turn_index st = Z.of_nat (length (evaluations st))
    /\ (forall c st0 cp rr r st1,
          evaluate_turn c st0 cp rr = (Ok r, st1) ->
          if is_duplicate st0 cp rr
          then r = None /\ st1 = st0
          else exists ev,
                 r = Some ev
                 /\ evaluations st1 = evaluations st0 ++ [ev]
                 /\ turn_index st1 = (turn_index st0 + 1)%Z
                 /\ turn_number ev = turn_index st1).
Proof.
  intros scenario persona calls st H. split.
  - apply (evaluate_turns_keep_count calls (fresh_state scenario persona) st);
      [reflexivity | exact H].
  - intros c st0 cp rr r st1 E.
    destruct (is_duplicate st0 cp rr) eqn:Hd.
    + rewrite (evaluate_turn_duplicate _ _ _ _ Hd) in E.
      injection E as <- <-. split; reflexivity.
    + destruct (evaluate_turn_accepted _ _ _ _ _ _ Hd E)
        as (ev & -> & -> & Hn & _).
      exists ev. repeat split. exact Hn.
Qed.

Lemma bookkeeping_invariant_witness :
  let calls := [mkTurnCall (sample_coach timeout_model) "Hi" "Ok";
                mkTurnCall (sample_coach timeout_model) "Hi" "Ok";
                mkTurnCall (sample_coach (answering_model score_json)) "Bye" "Ok"] in
  exists st,
    evaluate_turns (fresh_state "card" "Sarah Chen") calls = Ok st
    /\ turn_index st = 2%Z
    /\ length (evaluations st) = 2%nat.
Proof.
  cbv zeta. eexists. split; [vm_compute; reflexivity|].
  split; [|reflexivity].
  exact (proj1 (bookkeeping_invariant "card" "Sarah Chen"
                  [mkTurnCall (sample_coach timeout_model) "Hi" "Ok";
                   mkTurnCall (sample_coach timeout_model) "Hi" "Ok";
                   mkTurnCall (sample_coach (answering_model score_json)) "Bye" "Ok"]
                  _ eq_refl)).
Defined.

End CoachFacts.

(** ** The coach: assessment of a session *)
Module AssessmentFacts.
Import Json Prompts Coach.
Local Open Scope list_scope.







(** The loop over the transcript reads every entry that is readable. *)
Lemma read_entries_readable transcript :
  forallb readable_entry transcript = true ->
  exists lines, read_entries transcript = Ok lines.
Proof.
  induction transcript as [|entry rest IH]; cbn [forallb read_entries].
  - intros _. now eexists.
  - intros H. apply andb_true_iff in H. destruct H as [He Hr].
    destruct (IH Hr) as (lines & ->).
    unfold readable_entry in He. unfold read_entry.
    destruct entry as [| | | | | | | |d]; try discriminate.
    destruct (dict_get d "role" (JStr "")); try discriminate.
    cbn. now eexists.
Qed.

(** The entries of the session logger are readable. *)
Lemma logger_entries_readable (ts : list Logger.TranscriptEntry) :
  forallb readable_entry (map Logger.asdict ts) = true.
Proof. induction ts as [|t ts IH]; [reflexivity | exact IH]. Qed.

(** On a readable transcript the outcome is decided by the [try] block. *)
Lemma assessment_of_readable c st transcript p ps :
  forallb readable_entry transcript = true ->
  transcript <> [] ->
  find (_prompts_repo c) (Some "coach_agent"%string) None
    (Some "Session Assessment"%string) = p :: ps ->
  generate_session_assessment c st transcript
  = match assessment_attempt c (assessment_request p st transcript) with
    | Ok markdown => Ok markdown
    | Raise TimeoutError => Ok fallback_timeout
    | Raise e => Ok (fallback_failed e)
    end.
Proof.
  intros Hr Hne Hfind. unfold generate_session_assessment.
  destruct transcript as [|entry rest]; [congruence|].
  rewrite Hfind. destruct (read_entries_readable _ Hr) as (lines & ->).
  reflexivity.
Qed.




End AssessmentFacts.

(** ** The transcript handler *)
Module BotFacts.
Import Json Coach Bot.
Local Open Scope list_scope.

Lemma evaluate_and_record_transcript env s cp rr :
  recorded_messages (evaluate_and_record env s cp rr) = recorded_messages s.
Proof.
  unfold evaluate_and_record, recorded_messages.
  destruct (ensure_started _ _) as [coach1|e]; [|reflexivity].
  destruct (evaluate_turn coach1 (conv_state s) cp rr) as [[[ev|]|e] st1];
    cbn; try reflexivity.
  now destruct (Json.truthy (parsed ev)).
Qed.

Lemma evaluate_and_record_turns env s cp rr :
  recorded_turns s = map (fun ev => Some (recorded_turn ev)) (parsed_evaluations s) ->
  recorded_turns (evaluate_and_record env s cp rr)
  = map (fun ev => Some (recorded_turn ev))
      (parsed_evaluations (evaluate_and_record env s cp rr)).
Proof.
  intros Inv. unfold evaluate_and_record.
  destruct (ensure_started _ _) as [coach1|e]; [|exact Inv].
  destruct (CoachFacts.evaluate_turn_cases coach1 (conv_state s) cp rr)
    as [E|[(e & E)|(ev & E & Hn & Hc & Hr)]]; rewrite E.
  - exact Inv.
  - exact Inv.
  - unfold recorded_turns, parsed_evaluations in *. cbn.
    rewrite filter_app. cbn [filter].
    destruct (Json.truthy (parsed ev)) eqn:Ht; cbn.
    + rewrite !map_app, Inv. cbn. unfold recorded_turn.
      now rewrite Hn, Hc, Hr.
    + now rewrite app_nil_r.
Qed.

Lemma handle_message_transcript s env m :
  recorded_messages (handle_message s (env, m))
  = recorded_messages s ++ [(role m, content m)].
Proof.
  unfold handle_message.
  destruct (Aggregator.add_message _ _ _) as [[[cp rr]|] aggregator1].
  - rewrite evaluate_and_record_transcript. unfold recorded_messages. cbn.
    now rewrite map_app.
  - unfold recorded_messages. cbn. now rewrite map_app.
Qed.

Lemma handle_message_turns s em :
  recorded_turns s = map (fun ev => Some (recorded_turn ev)) (parsed_evaluations s) ->
  recorded_turns (handle_message s em)
  = map (fun ev => Some (recorded_turn ev)) (parsed_evaluations (handle_message s em)).
Proof.
  intros Inv. destruct em as [env m]. unfold handle_message.
  destruct (Aggregator.add_message _ _ _) as [[[cp rr]|] aggregator1].
  - apply evaluate_and_record_turns. exact Inv.
  - exact Inv.
Qed.

Lemma on_transcript_update_records ms : forall s,
  recorded_turns s = map (fun ev => Some (recorded_turn ev)) (parsed_evaluations s) ->
  let s' := on_transcript_update s ms in
  recorded_messages s'
  = recorded_messages s ++ map (fun em => (role (snd em), content (snd em))) ms
  /\ recorded_turns s'
     = map (fun ev => Some (recorded_turn ev)) (parsed_evaluations s').
Proof.
  induction ms as [|[env m] ms IH]; intros s Inv; cbn zeta.
  - cbn. now rewrite app_nil_r.
  - unfold on_transcript_update in *. cbn [fold_left].
    destruct (IH (handle_message s (env, m)) (handle_message_turns _ _ Inv))
      as [Hm Ht].
    split; [|exact Ht].
    rewrite Hm, handle_message_transcript. now rewrite <- app_assoc.
Qed.

(** C6, as amended: over any run of the handler on a new session, every
    message is appended to the final transcript, in order; the per-turn
    log holds a record for exactly the evaluations whose [parsed] is
    true, and none for an evaluation that parsed to nothing. *)
Theorem events_and_parsed_evaluations_recorded :
  forall (scenario stamp persona_name : string) (c : GeminiCoach)
         (ms : list (Env * Message)),
    let s := on_transcript_update (new_session scenario stamp persona_name c) ms in
    recorded_messages s = map (fun em => (role (snd em), content (snd em))) ms
    /\ recorded_turns s
       = map (fun ev => Some (recorded_turn ev)) (parsed_evaluations s).
Proof.
  intros scenario stamp persona c ms.
  apply (on_transcript_update_records ms (new_session scenario stamp persona c)).
  reflexivity.
Qed.

(** C6, as stated, fails: when the oracle times out on a completed turn,
    [evaluate_turn] returns an evaluation with nothing parsed, and the
    handler appends no per-turn record for it. *)
Lemma degraded_evaluation_not_recorded :
  ~ (forall (c : GeminiCoach) (ms : list (Env * Message)),
       let s := on_transcript_update (new_session "card" "S" "Sarah Chen" c) ms in
       length (Logger._coach_turns (session_logger s))
       = length (evaluations (conv_state s))).
Proof.
  intros H.
  specialize (H (sample_coach timeout_model)
                (map (fun m => (sample_env timeout_model, m))
                   [mkMessage "assistant" "Hi"; mkMessage "user" "Ok";
                    mkMessage "assistant" "Bye"])).
  vm_compute in H. discriminate.
Qed.

End BotFacts.

(** ** More on Python's [str] methods *)
Module PyStrFacts.
Import PyStr.
Local Open Scope list_scope.

(** A text that starts with a character that is no white space has a
    first word. *)
Lemma split_cons_nonspace c s :
  isspace c = false -> exists w ws, split (String c s) = String c w :: ws.
Proof.
  intros Hc. cbn [split]. rewrite Hc.
  destruct s as [|c' s']; [now exists EmptyString, []|].
  destruct (isspace c'); [now eexists; eexists|].
  destruct (split (String c' s')) as [|w ws]; now eexists; eexists.
Qed.

(** [split] of two texts with one white space character between them. *)
Lemma split_app_space sp a : forall b,
  isspace sp = true ->
  split (a ++ String sp b)%string = split a ++ split b.
Proof.
  induction a as [|c a IH]; intros b Hsp.
  - cbn [append split app]. now rewrite Hsp.
  - specialize (IH b Hsp).
    change (String c a ++ String sp b)%string
      with (String c (a ++ String sp b)).
    destruct a as [|c' a'].
    + cbn [append] in *. cbn [split]. rewrite Hsp.
      destruct (isspace c); reflexivity.
    + change (String c' a' ++ String sp b)%string
        with (String c' (a' ++ String sp b)) in *.
      remember (String c' (a' ++ String sp b)) as s' eqn:Es'.
      remember (String c' a') as a1 eqn:Ea1.
      cbn [split]. rewrite Es', Ea1. rewrite <- Es', <- Ea1.
      destruct (isspace c) eqn:Hc; [exact IH|].
      destruct (isspace c') eqn:Hc'; [now rewrite IH|].
      rewrite IH.
      destruct (split_cons_nonspace c' a' Hc') as (w & ws & Hw).
      rewrite Ea1, Hw. reflexivity.
Qed.

Lemma space_isspace : isspace " " = true.
Proof. reflexivity. Qed.

(** The words of fragments joined by single spaces are the words of the
    fragments. *)
Lemma split_join (frs : list string) :
  split (join " " frs) = concat (map split frs).
Proof.
  induction frs as [|f frs IH]; [reflexivity|].
  destruct frs as [|g frs].
  - cbn. now rewrite app_nil_r.
  - change (join " " (f :: g :: frs))
      with (f ++ String " " (join " " (g :: frs)))%string.
    rewrite (split_app_space " " f _ space_isspace), IH. reflexivity.
Qed.

Lemma split_word w : is_word w -> split w = [w].
Proof.
  intros [Hne Hns]. induction w as [|c w IH]; [congruence|].
  cbn [no_space] in Hns. apply andb_true_iff in Hns. destruct Hns as [Hc Hw].
  apply negb_true_iff in Hc. cbn [split]. rewrite Hc.
  destruct w as [|c' w']; [reflexivity|].
  assert (Hc' : isspace c' = false).
  { cbn [no_space] in Hw. apply andb_true_iff in Hw.
    now apply negb_true_iff. }
  rewrite Hc', IH; [reflexivity | discriminate | exact Hw].
Qed.

Lemma split_words s : Forall is_word (split s).
Proof.
  induction s as [|c s IH]; [constructor|].
  cbn [split]. destruct (isspace c) eqn:Hc; [exact IH|].
  assert (H1 : is_word (String c "")).
  { split; [discriminate|]. cbn. now rewrite Hc. }
  destruct s as [|c' s']; [now constructor|].
  destruct (isspace c'); [now constructor|].
  destruct (split (String c' s')) as [|w ws]; [now constructor|].
  inversion IH as [|? ? [Hw1 Hw2] Hws]; subst.
  constructor; [|exact Hws].
  split; [discriminate|]. cbn [no_space]. now rewrite Hc, Hw2.
Qed.

Lemma concat_split_words ws :
  Forall is_word ws -> concat (map split ws) = ws.
Proof.
  induction 1 as [|w ws Hw _ IH]; [reflexivity|].
  cbn. now rewrite (split_word w Hw), IH.
Qed.

End PyStrFacts.

(** ** More on the aggregator *)
Module AggregatorMore.
Import Aggregator.
Local Open Scope list_scope.

Lemma last_complete_turn_app (l : list ConversationTurn) (t : ConversationTurn) :
  last (map Some (l ++ [t])) None = Some t.
Proof. rewrite map_app. cbn. apply last_last. Qed.

Lemma step_effect :
  forall (a : ConversationAggregator) (o : op),
    match fst (step a o) with
    | Some (prompt, response) =>
        exists t,
          completed_turns (snd (step a o)) = completed_turns a ++ [t]
          /\ get_last_complete_turn (snd (step a o)) = Some t
          /\ customer_prompt t = Some prompt
          /\ representative_responses t = pending_rep_fragments a
          /\ get_aggregated_representative_response t = response
          /\ get_turn_count (snd (step a o)) = (get_turn_count a + 1)%Z
          /\ pending_rep_fragments (snd (step a o)) = []
    | None =>
        o = Reset
        \/ (completed_turns (snd (step a o)) = completed_turns a
            /\ get_turn_count (snd (step a o)) = get_turn_count a)
    end.
Proof.
  intros a o.
  assert (Hagg : nonempty (pending_rep_fragments a) = true ->
                 get_aggregated_representative_response
                   {| customer_prompt := pending_customer_prompt a;
                      representative_responses := pending_rep_fragments a |}
                 = aggregate (pending_rep_fragments a)).
  { unfold get_aggregated_representative_response. cbn.
    destruct (pending_rep_fragments a); [discriminate|reflexivity]. }
  assert (Hdone : has_pending_turn a = true ->
                  forall p, pending_customer_prompt a = Some p ->
                  forall pending',
                  let t := {| customer_prompt := Some p;
                              representative_responses := pending_rep_fragments a |} in
                  let a' := {| pending_customer_prompt := pending';
                               pending_rep_fragments := [];
                               completed_turns := completed_turns a ++ [t];
                               _turn_count := _turn_count a + 1 |} in
                  exists t0,
                    completed_turns a' = completed_turns a ++ [t0]
                    /\ get_last_complete_turn a' = Some t0
                    /\ customer_prompt t0 = Some p
                    /\ representative_responses t0 = pending_rep_fragments a
                    /\ get_aggregated_representative_response t0
                       = aggregate (pending_rep_fragments a)
                    /\ get_turn_count a' = (get_turn_count a + 1)%Z
                    /\ pending_rep_fragments a' = []).
  { intros Hp p Ep pending'. cbv zeta. eexists. split; [reflexivity|].
    split; [apply last_complete_turn_app|].
    split; [reflexivity|]. split; [reflexivity|].
    split; [|split; reflexivity].
    apply andb_true_iff in Hp. destruct Hp as [_ Hf].
    rewrite <- (Hagg Hf), Ep. reflexivity. }
  destruct o as [role content| |]; cbn [step].
  - unfold add_message.
    destruct (is_blank content); [right; split; reflexivity|].
    destruct (role =? "assistant")%string.
    + destruct (has_pending_turn a) eqn:Hp; [|right; split; reflexivity].
      destruct (pending_customer_prompt a) as [p|] eqn:Ep;
        [|right; split; reflexivity].
      cbn [fst snd]. apply (Hdone eq_refl p eq_refl).
    + destruct (role =? "user")%string; [|right; split; reflexivity].
      destruct (negb _); right; split; reflexivity.
  - unfold flush_pending_turn.
    destruct (has_pending_turn a) eqn:Hp; [|right; split; reflexivity].
    destruct (pending_customer_prompt a) as [p|] eqn:Ep;
      [|right; split; reflexivity].
    cbn [fst snd]. apply (Hdone eq_refl p eq_refl).
  - left. reflexivity.
Qed.

(** X1: What a call of the aggregator that returns a pair has done, and what
    one that returns nothing has left alone: the pair is the prompt and
    the aggregated response of the turn just stored, which is the last
    complete turn. *)
Theorem returned_pair_is_stored_turn :
  forall (a : ConversationAggregator) (o : op),
    match fst (step a o) with
    | Some (prompt, response) =>
        exists t,
          completed_turns (snd (step a o)) = completed_turns a ++ [t]
          /\ get_last_complete_turn (snd (step a o)) = Some t
          /\ customer_prompt t = Some prompt
          /\ representative_responses t = pending_rep_fragments a
          /\ get_aggregated_representative_response t = response
          /\ get_turn_count (snd (step a o)) = (get_turn_count a + 1)%Z
          /\ pending_rep_fragments (snd (step a o)) = []
    | None =>
        o = Reset
        \/ (completed_turns (snd (step a o)) = completed_turns a
            /\ get_turn_count (snd (step a o)) = get_turn_count a)
    end.
Proof. exact step_effect. Qed.

Lemma step_keeps_count a o :
  _turn_count a = Z.of_nat (length (completed_turns a)) ->
  _turn_count (snd (step a o))
  = Z.of_nat (length (completed_turns (snd (step a o)))).
Proof.
  intros Inv. pose proof (step_effect a o) as H.
  destruct (fst (step a o)) as [[p r]|].
  - destruct H as (t & Hc & _ & _ & _ & _ & Hn & _).
    unfold get_turn_count in Hn. rewrite Hn, Hc, length_app, Inv. cbn. lia.
  - destruct H as [->|[Hc Hn]]; [reflexivity|].
    unfold get_turn_count in Hn. now rewrite Hn, Hc.
Qed.

(** X2: The counter of turns is the number of stored turns, whatever calls
    were made on a new aggregator. *)
Theorem turn_count_is_number_of_turns :
  forall os : list op,
    get_turn_count (run_ops init os)
    = Z.of_nat (length (completed_turns (run_ops init os))).
Proof.
  intros os. unfold get_turn_count.
  assert (G : forall a, _turn_count a = Z.of_nat (length (completed_turns a)) ->
                        _turn_count (run_ops a os)
                        = Z.of_nat (length (completed_turns (run_ops a os)))).
  { induction os as [|o os IH]; intros a Inv; [exact Inv|].
    cbn. apply IH. now apply step_keeps_count. }
  now apply G.
Qed.

Lemma flush_clears a :
  has_pending_turn (snd (flush_pending_turn a)) = false.
Proof.
  unfold flush_pending_turn.
  destruct (has_pending_turn a) eqn:Hp; [|exact Hp].
  destruct (pending_customer_prompt a) eqn:Ep; [reflexivity|].
  unfold has_pending_turn in Hp. rewrite Ep in Hp. discriminate.
Qed.

(** X3: A second flush returns nothing and changes nothing, from any state. *)
Theorem flush_twice :
  forall a : ConversationAggregator,
    let a' := snd (flush_pending_turn a) in
    flush_pending_turn a' = (None, a')
    /\ has_pending_turn a' = false.
Proof.
  intros a. cbv zeta.
  pose proof (flush_clears a) as H.
  split; [|exact H].
  unfold flush_pending_turn at 1. now rewrite H.
Qed.

(** X4: Two customer messages in a row: when no turn is pending, the first
    leaves no trace, and neither returns a pair. *)
Theorem customer_prompt_superseded :
  forall (a : ConversationAggregator) (first second : string),
    has_pending_turn a = false ->
    is_blank first = false ->
    is_blank second = false ->
    let a1 := snd (add_message a customer first) in
    add_message a1 customer second = add_message a customer second
    /\ fst (add_message a customer first) = None
    /\ fst (add_message a customer second) = None
    /\ pending_customer_prompt (snd (add_message a1 customer second))
       = Some (PyStr.strip second).
Proof.
  intros a c1 c2 Hp H1 H2. cbv zeta.
  unfold add_message, customer. rewrite H1, H2. cbn [String.eqb Ascii.eqb Bool.eqb].
  rewrite Hp. cbn [fst snd].
  unfold has_pending_turn. cbn. rewrite andb_false_r.
  repeat split.
Qed.

Lemma customer_prompt_superseded_witness :
  add_message (snd (add_message init customer "Hello")) customer "I lost my card"
  = add_message init customer "I lost my card".
Proof.
  exact (proj1 (customer_prompt_superseded init "Hello" "I lost my card"
                  eq_refl eq_refl eq_refl)).
Defined.

Lemma not_blank_strip content :
  is_blank content = false -> PyStr.strip content <> ""%string.
Proof.
  unfold is_blank. intros H. apply orb_false_iff in H. destruct H as [_ H].
  apply negb_false_iff in H. intros E. rewrite E in H. discriminate.
Qed.

Lemma step_keeps_pending_consistent a o :
  pending_consistent a -> pending_consistent (snd (step a o)).
Proof.
  intros Inv. pose proof Inv as (Hf & Hp & Hall).
  assert (Hnew : forall content completed count,
            is_blank content = false ->
            pending_consistent
              {| pending_customer_prompt := Some (PyStr.strip content);
                 pending_rep_fragments := [];
                 completed_turns := completed;
                 _turn_count := count |}).
  { intros content completed count Hb. repeat split; cbn.
    - congruence.
    - intros p E. injection E as <-. now apply not_blank_strip.
    - constructor. }
  destruct o as [role content| |]; cbn [step].
  - unfold add_message. destruct (is_blank content) eqn:Hb; [exact Inv|].
    destruct (role =? "assistant")%string.
    + destruct (has_pending_turn a).
      * destruct (pending_customer_prompt a); [now apply Hnew | exact Inv].
      * now apply Hnew.
    + destruct (role =? "user")%string; [|exact Inv].
      destruct (PyStr.truthy_opt (pending_customer_prompt a)) eqn:Ht; cbn [negb];
        [|exact Inv].
      repeat split; cbn.
      * intros _. exact Ht.
      * exact Hp.
      * apply Forall_app. split; [exact Hall|].
        constructor; [now apply not_blank_strip | constructor].
  - unfold flush_pending_turn. destruct (has_pending_turn a); [|exact Inv].
    destruct (pending_customer_prompt a); [|exact Inv].
    repeat split; cbn; [congruence | discriminate | constructor].
  - repeat split; cbn; [congruence | discriminate | constructor].
Qed.

(** X5: On every state that can be reached, fragments are pending only under
    a prompt and neither is empty; so a flush returns nothing exactly
    when no representative response is pending. *)
Theorem flush_returns_unless_no_response :
  forall os : list op,
    let a := run_ops init os in
    pending_consistent a
    /\ (fst (flush_pending_turn a) = None
        <-> get_pending_representative_response a = None).
Proof.
  intros os. cbv zeta.
  assert (G : forall a, pending_consistent a -> pending_consistent (run_ops a os)).
  { induction os as [|o os IH]; intros a Inv; [exact Inv|].
    cbn. apply IH. now apply step_keeps_pending_consistent. }
  assert (Inv : pending_consistent (run_ops init os)).
  { apply G. repeat split; cbn; [congruence | discriminate | constructor]. }
  split; [exact Inv|].
  destruct Inv as (Hf & _ & _).
  unfold flush_pending_turn, get_pending_representative_response, has_pending_turn.
  destruct (pending_rep_fragments (run_ops init os)) as [|f frs] eqn:Ef.
  - rewrite andb_false_r. split; reflexivity.
  - rewrite Hf by discriminate. cbn.
    destruct (pending_customer_prompt (run_ops init os)) eqn:Ep; cbn.
    + split; discriminate.
    + specialize (Hf ltac:(discriminate)). discriminate.
Qed.

Lemma feed_cons a role content evs :
  feed a ((role, content) :: evs)
  = (fst (add_message a role content)
       :: fst (feed (snd (add_message a role content)) evs),
     snd (feed (snd (add_message a role content)) evs)).
Proof.
  cbn [feed]. destruct (add_message a role content) as [r a'].
  cbn [fst snd]. now destruct (feed a' evs).
Qed.

Lemma add_message_holds a role content :
  PyStr.truthy_opt (pending_customer_prompt a) = true ->
  let a' := snd (add_message a role content) in
  PyStr.truthy_opt (pending_customer_prompt a') = true
  /\ held_fragments a'
     = held_fragments a
       ++ (if negb (is_blank content) && (role =? "user")%string
           then [PyStr.strip content] else []).
Proof.
  intros Ht. cbv zeta. unfold add_message, held_fragments.
  destruct (is_blank content) eqn:Hb; cbn [negb andb].
  { split; [exact Ht | now rewrite app_nil_r]. }
  assert (Hs : PyStr.truthy (PyStr.strip content) = true).
  { apply not_blank_strip in Hb. now destruct (PyStr.strip content). }
  destruct (role =? "assistant")%string eqn:Ea.
  - apply String.eqb_eq in Ea. subst role. cbn [String.eqb Ascii.eqb Bool.eqb].
    destruct (has_pending_turn a) eqn:Hp.
    + destruct (pending_customer_prompt a) as [p|]; [|discriminate].
      cbn. split; [exact Hs|].
      now rewrite map_app, concat_app, !app_nil_r; cbn; rewrite app_nil_r.
    + unfold has_pending_turn in Hp. rewrite Ht in Hp. cbn in Hp.
      destruct (pending_rep_fragments a); [|discriminate].
      cbn. split; [exact Hs | now rewrite !app_nil_r].
  - destruct (role =? "user")%string.
    + rewrite Ht. cbn. split; [exact Ht | now rewrite app_assoc].
    + split; [exact Ht | now rewrite app_nil_r].
Qed.

Lemma feed_holds evs : forall a,
  PyStr.truthy_opt (pending_customer_prompt a) = true ->
  held_fragments (snd (feed a evs))
  = held_fragments a ++ representative_contents evs.
Proof.
  induction evs as [|[role content] evs IH]; intros a Ht.
  - cbn. now rewrite app_nil_r.
  - rewrite feed_cons. cbn [snd].
    destruct (add_message_holds a role content Ht) as [Ht' Hh].
    rewrite (IH _ Ht'), Hh, <- app_assoc. f_equal.
    unfold representative_contents. cbn [filter fst snd].
    destruct (negb (is_blank content) && (role =? "user")%string); reflexivity.
Qed.

(** X6: Once the customer has spoken, no fragment of the representative is
    lost: the fragments of the stored turns followed by the pending ones
    are the stripped contents of the representative's messages, in the
    order of arrival. *)
Theorem fragments_conserved :
  forall (first : string) (evs : list (string * string)),
    is_blank first = false ->
    held_fragments (snd (feed init ((customer, first) :: evs)))
    = representative_contents evs.
Proof.
  intros first evs Hb. rewrite feed_cons. cbn [snd].
  rewrite feed_holds.
  - unfold add_message, customer. rewrite Hb. reflexivity.
  - unfold add_message, customer. rewrite Hb. cbn.
    apply not_blank_strip in Hb. now destruct (PyStr.strip first).
Qed.

Lemma fragments_conserved_witness :
  held_fragments
    (snd (feed init [(customer, "Hi"); (representative, " Okay ");
                     (representative, "Let me help"); (customer, "Thanks");
                     (representative, "Bye")]))
  = ["Okay"; "Let me help"; "Bye"]%string.
Proof.
  exact (fragments_conserved "Hi"
           [(representative, " Okay "); (representative, "Let me help");
            (customer, "Thanks"); (representative, "Bye")] eq_refl).
Defined.

Lemma irrelevant_message a role content :
  relevant (role, content) = false -> add_message a role content = (None, a).
Proof.
  unfold relevant, add_message. cbn [fst snd].
  destruct (is_blank content); [reflexivity|]. cbn [negb andb].
  intros H. apply orb_false_iff in H. destruct H as [-> ->]. reflexivity.
Qed.

(** X7: Messages that are blank or of an unknown role can be left out of a
    stream: the pairs returned and the final state are the same. *)
Theorem irrelevant_messages_ignored :
  forall (a : ConversationAggregator) (evs : list (string * string)),
    returned (fst (feed a evs)) = returned (fst (feed a (filter relevant evs)))
    /\ snd (feed a evs) = snd (feed a (filter relevant evs)).
Proof.
  intros a evs. revert a.
  induction evs as [|[role content] evs IH]; intros a; [split; reflexivity|].
  cbn [filter]. destruct (relevant (role, content)) eqn:Hr.
  - rewrite !feed_cons. cbn [fst snd returned flat_map].
    destruct (IH (snd (add_message a role content))) as [H1 H2].
    unfold returned in H1. now rewrite H1, H2.
  - rewrite feed_cons, (irrelevant_message a role content Hr).
    cbn [fst snd returned flat_map app]. apply IH.
Qed.

(** X8: The aggregated response is made of the words of the fragments, in
    order, with single spaces between them; aggregating it again changes
    nothing. *)
Theorem aggregate_words :
  forall frs : list string,
    aggregate frs = PyStr.join " " (concat (map PyStr.split frs))
    /\ PyStr.split (aggregate frs) = concat (map PyStr.split frs)
    /\ aggregate [aggregate frs] = aggregate frs.
Proof.
  intros frs.
  assert (H1 : aggregate frs = PyStr.join " " (concat (map PyStr.split frs))).
  { unfold aggregate. now rewrite PyStrFacts.split_join. }
  assert (Hw : Forall PyStr.is_word (concat (map PyStr.split frs))).
  { induction frs as [|f frs IH]; [constructor|].
    cbn. apply Forall_app. split; [apply PyStrFacts.split_words|].
    apply IH. unfold aggregate. now rewrite PyStrFacts.split_join. }
  assert (H2 : PyStr.split (aggregate frs) = concat (map PyStr.split frs)).
  { rewrite H1, PyStrFacts.split_join.
    now apply PyStrFacts.concat_split_words. }
  split; [exact H1|]. split; [exact H2|].
  unfold aggregate at 1. cbn [PyStr.join]. now rewrite H2, <- H1.
Qed.

End AggregatorMore.

(** ** More on the coach *)
Module CoachMore.
Import Json Prompts Coach.
Local Open Scope list_scope.

(** What the [try] block of [evaluate_turn] yields when it succeeds: the
    parse of the raw text, which is an object when it is true. *)
Lemma evaluation_attempt_ok c prompt raw p :
  evaluation_attempt c prompt = Ok (raw, p) ->
  p = _safe_json_extract raw
  /\ (Json.truthy p = true -> exists items, p = JObj items /\ items <> []).
Proof.
  unfold evaluation_attempt.
  destruct (generate_content c prompt) as [response|e]; [|discriminate].
  cbn [bind].
  assert (G : forall r : result string,
            bind r (fun raw_text =>
              bind (if Json.truthy (_safe_json_extract raw_text)
                    then log_score (_safe_json_extract raw_text) else Ok tt)
                (fun _ => Ok (raw_text, _safe_json_extract raw_text)))
            = Ok (raw, p) ->
            p = _safe_json_extract raw
            /\ (Json.truthy p = true -> exists items, p = JObj items /\ items <> [])).
  { intros [t|e]; [|discriminate]. cbn [bind].
    destruct (Json.truthy (_safe_json_extract t)) eqn:Ht.
    - destruct (_safe_json_extract t) as [| | | | | | |l|items] eqn:Ex;
        cbn [log_score bind]; try discriminate.
      intros H. injection H as <- <-. rewrite Ex. split; [reflexivity|].
      intros _. exists items. split; [reflexivity|].
      intros ->. discriminate.
    - cbn [bind]. intros H. injection H as <- <-. split; [reflexivity|].
      intros Hp. congruence. }
  destruct (candidates response) as [|candidate cs]; [apply (G (Ok ""%string))|].
  destruct (finish_reason candidate) as [reason|]; [|apply G].
  destruct (reason =? 2)%Z; apply G.
Qed.

(** X9: Whatever [evaluate_turn] returns, a [parsed] that is true is an
    object with at least one key, decoded from the [raw_text] that is
    kept next to it. *)
Theorem parsed_is_object_or_nothing :
  forall (c : GeminiCoach) (st : ConversationState) (cp rr : string)
         (ev : TurnEvaluation),
    fst (evaluate_turn c st cp rr) = Ok (Some ev) ->
    Json.truthy (parsed ev) = true ->
    (exists items, parsed ev = JObj items /\ items <> [])
    /\ parsed ev = _safe_json_extract (raw_text ev).
Proof.
  intros c st cp rr ev. unfold evaluate_turn.
  destruct (is_duplicate st cp rr); [discriminate|].
  destruct (_build_evaluation_prompt c (accept_turn st cp rr) cp rr)
    as [prompt|e]; [|discriminate].
  unfold guarded_attempt.
  destruct (evaluation_attempt c prompt) as [[raw p]|[|k msg]] eqn:E;
    cbn [fst]; intros H; injection H as <-; cbn [parsed raw_text];
    try discriminate.
  intros Ht. destruct (evaluation_attempt_ok _ _ _ _ E) as [Hp Hobj].
  split; [now apply Hobj | exact Hp].
Qed.

Lemma parsed_is_object_or_nothing_witness :
  exists items,
    JObj [("turn_quality_score"%string, JInt 8)] = JObj items /\ items <> [].
Proof.
  exact (proj1 (parsed_is_object_or_nothing
                  (sample_coach (answering_model wrapped_score_json))
                  (fresh_state "card" "Sarah Chen") "Hi"%string "Ok"%string
                  (mkEvaluation 1 "Hi" "Ok" wrapped_score_json
                     (JObj [("turn_quality_score"%string, JInt 8)]))
                  eq_refl eq_refl)).
Defined.

(** X10: An answer stopped by the safety filters, and an answer without
    candidates, are not read: the first gives the fixed text, the second
    the empty text, and nothing is parsed from either. *)
Theorem unreadable_answers :
  forall (c : GeminiCoach) (st : ConversationState) (cp rr : string)
         (prompt : request) (response : GenerateContentResponse),
    is_duplicate st cp rr = false ->
    _build_evaluation_prompt c (accept_turn st cp rr) cp rr = Ok prompt ->
    generate_content c prompt = Ok response ->
    (forall candidate rest,
       candidates response = candidate :: rest ->
       finish_reason candidate = Some 2%Z ->
       exists ev,
         fst (evaluate_turn c st cp rr) = Ok (Some ev)
         /\ raw_text ev = "Response blocked by safety filters"%string
         /\ parsed ev = JNull)
    /\ (candidates response = [] ->
        exists ev,
          fst (evaluate_turn c st cp rr) = Ok (Some ev)
          /\ raw_text ev = ""%string
          /\ parsed ev = JNull).
Proof.
  intros c st cp rr prompt response Hd Hp Hg. split.
  - intros candidate rest Hc Hf. unfold evaluate_turn. rewrite Hd, Hp.
    unfold guarded_attempt, evaluation_attempt. rewrite Hg. cbn [bind].
    rewrite Hc, Hf. cbn. eexists. repeat split.
  - intros Hc. unfold evaluate_turn. rewrite Hd, Hp.
    unfold guarded_attempt, evaluation_attempt. rewrite Hg. cbn [bind].
    rewrite Hc. cbn. eexists. repeat split.
Qed.

Lemma unreadable_answers_witness :
  (exists ev,
     fst (evaluate_turn (sample_coach blocked_model)
            (fresh_state "card" "Sarah Chen") "Hi" "Ok") = Ok (Some ev)
     /\ raw_text ev = "Response blocked by safety filters"%string
     /\ parsed ev = JNull)
  /\ (exists ev,
        fst (evaluate_turn (sample_coach silent_model)
               (fresh_state "card" "Sarah Chen") "Hi" "Ok") = Ok (Some ev)
        /\ raw_text ev = ""%string
        /\ parsed ev = JNull).
Proof.
  split.
  - eapply (proj1 (unreadable_answers (sample_coach blocked_model)
                     (fresh_state "card" "Sarah Chen") "Hi"%string "Ok"%string
                     _ _ eq_refl eq_refl eq_refl)); reflexivity.
  - eapply (proj2 (unreadable_answers (sample_coach silent_model)
                     (fresh_state "card" "Sarah Chen") "Hi"%string "Ok"%string
                     _ _ eq_refl eq_refl eq_refl)); reflexivity.
Defined.

Lemma evaluate_each_cons k ks st :
  evaluate_each st (k :: ks)
  = (fst (evaluate_turn (call_coach k) st (call_customer_prompt k)
            (call_representative_response k))
       :: fst (evaluate_each
                 (snd (evaluate_turn (call_coach k) st (call_customer_prompt k)
                         (call_representative_response k))) ks),
     snd (evaluate_each
            (snd (evaluate_turn (call_coach k) st (call_customer_prompt k)
                    (call_representative_response k))) ks)).
Proof.
  cbn [evaluate_each].
  destruct (evaluate_turn _ _ _ _) as [r st1]. cbn [fst snd].
  now destruct (evaluate_each st1 ks).
Qed.

Lemma evaluate_each_accounts calls : forall st,
  let rs := fst (evaluate_each st calls) in
  let st' := snd (evaluate_each st calls) in
  evaluations st' = evaluations st ++ returned_evaluations rs
  /\ turn_index st'
     = (turn_index st + Z.of_nat (length (returned_evaluations rs))
        + Z.of_nat (raised rs))%Z.
Proof.
  induction calls as [|k ks IH]; intros st; cbv zeta.
  - cbn. rewrite app_nil_r. split; [reflexivity | lia].
  - rewrite evaluate_each_cons. cbn [fst snd].
    destruct (CoachFacts.evaluate_turn_cases (call_coach k) st
                (call_customer_prompt k) (call_representative_response k))
      as [E|[(e & E)|(ev & E & _)]]; rewrite E; cbn [fst snd].
    + destruct (IH st) as [H1 H2]. unfold returned_evaluations, raised in *.
      cbn. split; [exact H1 | exact H2].
    + destruct (IH (accept_turn st (call_customer_prompt k)
                      (call_representative_response k))) as [H1 H2].
      unfold returned_evaluations, raised in *. cbn in *.
      split; [exact H1 | lia].
    + destruct (IH (append_evaluation
                      (accept_turn st (call_customer_prompt k)
                         (call_representative_response k)) ev)) as [H1 H2].
      unfold returned_evaluations, raised in *. cbn in *.
      rewrite <- app_assoc in H1. cbn in H1.
      split; [exact H1 | lia].
Qed.

(** X11: A caller that carries on after exceptions: the evaluations of the
    state are the evaluations that were returned, in order, and
    [turn_index] exceeds their number by the number of calls that
    raised. *)
Theorem turn_index_counts_raised_calls :
  forall (scenario persona_name : string) (calls : list turn_call),
    let rs := fst (evaluate_each (fresh_state scenario persona_name) calls) in
    let st := snd (evaluate_each (fresh_state scenario persona_name) calls) in
    evaluations st = returned_evaluations rs
    /\ turn_index st
       = (Z.of_nat (length (evaluations st)) + Z.of_nat (raised rs))%Z.
Proof.
  intros scenario persona calls. cbv zeta.
  destruct (evaluate_each_accounts calls (fresh_state scenario persona))
    as [H1 H2].
  cbn in H1, H2. split; [exact H1 | rewrite H1; lia].
Qed.

Lemma StronglySorted_snoc (l : list Z) (x : Z) :
  StronglySorted Z.lt l -> Forall (fun y => (y < x)%Z) l ->
  StronglySorted Z.lt (l ++ [x]).
Proof.
  induction 1 as [|y l Hs IH Hy]; intros Hall; cbn.
  - constructor; constructor.
  - inversion Hall as [|? ? Hyx Hl]; subst. constructor.
    + now apply IH.
    + apply Forall_app. split; [exact Hy | now constructor].
Qed.

Lemma evaluate_turn_numbered c st cp rr :
  numbered st -> numbered (snd (evaluate_turn c st cp rr)).
Proof.
  intros (Hs & Hb & H0).
  assert (Hb' : Forall (fun ev => (1 <= turn_number ev <= turn_index st + 1)%Z)
                  (evaluations st)).
  { eapply Forall_impl; [|exact Hb]. cbn. intros ev ?. lia. }
  destruct (CoachFacts.evaluate_turn_cases c st cp rr)
    as [E|[(e & E)|(ev & E & Hn & _)]]; rewrite E; cbn [snd].
  - repeat split; assumption.
  - repeat split; cbn; [exact Hs | exact Hb' | lia].
  - repeat split; cbn.
    + rewrite map_app. cbn. apply StronglySorted_snoc; [exact Hs|].
      rewrite Forall_map. eapply Forall_impl; [|exact Hb]. cbn.
      intros ev' ?. lia.
    + apply Forall_app. split; [exact Hb'|].
      constructor; [lia | constructor].
    + lia.
Qed.

(** X12: Whatever calls are made on a new state, also ones that raise, the
    evaluations carry increasing turn numbers between 1 and
    [turn_index]: no number is given twice. *)
Theorem turn_numbers_increase :
  forall (scenario persona_name : string) (calls : list turn_call),
    let st := snd (evaluate_each (fresh_state scenario persona_name) calls) in
    StronglySorted Z.lt (map turn_number (evaluations st))
    /\ Forall (fun ev => (1 <= turn_number ev <= turn_index st)%Z)
         (evaluations st).
Proof.
  intros scenario persona calls. cbv zeta.
  assert (G : forall st, numbered st -> numbered (snd (evaluate_each st calls))).
  { induction calls as [|k ks IH]; intros st Inv; [exact Inv|].
    rewrite evaluate_each_cons. cbn [snd]. apply IH.
    now apply evaluate_turn_numbered. }
  destruct (G (fresh_state scenario persona)) as (Hs & Hb & _).
  - repeat split; cbn; [constructor | constructor | lia].
  - split; assumption.
Qed.

(** X13: The life cycle of the coach: [ensure_started] leaves a coach that is
    ready as it is; on one that is not, it fails without an API key and
    otherwise makes it ready, keeping repository and key, after which a
    further call changes nothing; [stop] makes it not ready, once or
    twice. *)
Theorem coach_life_cycle :
  forall (m m' : GenerativeModel) (c : GeminiCoach),
    (is_ready c = true -> ensure_started m c = Ok c)
    /\ (is_ready c = false -> PyStr.truthy_opt (_api_key c) = false ->
        ensure_started m c = Raise (Error "RuntimeError" "GEMINI_API_KEY is not set"))
    /\ (forall c', ensure_started m c = Ok c' ->
                   is_ready c' = true
                   /\ _prompts_repo c' = _prompts_repo c
                   /\ _api_key c' = _api_key c
                   /\ ensure_started m' c' = Ok c')
    /\ is_ready (stop c) = false
    /\ stop (stop c) = stop c
    /\ (PyStr.truthy_opt (_api_key c) = true ->
        exists c', ensure_started m (stop c) = Ok c' /\ _model c' = Some m).
Proof.
  intros m m' c. unfold ensure_started, start, is_ready, stop.
  split; [|split; [|split; [|split; [|split]]]].
  - destruct (_model c); [reflexivity | discriminate].
  - destruct (_model c); [discriminate|]. cbn. now intros _ ->.
  - intros c'. destruct (_model c) eqn:Em; cbn.
    + intros H. injection H as <-. rewrite Em. repeat split.
    + destruct (PyStr.truthy_opt (_api_key c)); cbn; [|discriminate].
      intros H. injection H as <-. repeat split.
  - reflexivity.
  - reflexivity.
  - cbn. intros ->. cbn. eexists. split; reflexivity.
Qed.

(** X14: [summarize_conversation]: nothing without evaluations; with some, the
    [KeyError] of the fall-back when the repository has no main system
    prompt; with the prompt, a value on every outcome of the call, and
    nothing when the call or the reading of its answer raises. *)
Theorem summarize_conversation_outcomes :
  forall (repo : PromptsRepository) (model : option SummaryModel)
         (st : ConversationState),
    (evaluations st = [] -> summarize_conversation repo model st = Ok JNull)
    /\ (evaluations st <> [] ->
        find repo (Some "coach_agent"%string) None (Some "Main System"%string) = [] ->
        summarize_conversation repo model st
        = Raise (KeyError "No coach main system prompt found"))
    /\ (forall p ps,
          find repo (Some "coach_agent"%string) None (Some "Main System"%string)
          = p :: ps ->
          (exists v, summarize_conversation repo model st = Ok v)
          /\ (forall e,
                summary_attempt model
                  (mkSummaryRequest (get (system (content p)) "")
                     (map (fun ev => (turn_number ev, customer_message ev,
                                      representative_response ev))
                        (evaluations st)))
                = Raise e ->
                summarize_conversation repo model st = Ok JNull)).
Proof.
  intros repo model st. unfold summarize_conversation. split; [|split].
  - now intros ->.
  - intros Hne Hfind. destruct (evaluations st); [congruence|].
    rewrite Hfind, (CoachFacts.fallback_prompt_missing _ Hfind). reflexivity.
  - intros p ps Hfind. rewrite Hfind. cbn [bind].
    destruct (evaluations st) as [|ev evs]; [split; [now eexists|reflexivity]|].
    split.
    + destruct (summary_attempt _ _); eexists; reflexivity.
    + intros e ->. reflexivity.
Qed.

End CoachMore.

(** ** More on the extraction of the answer *)
Module ExtractMore.
Import Json Coach.
Local Open Scope list_scope.

Lemma find_absent_or_index c s :
  PyStr.find c s = (-1)%Z \/ (0 <= PyStr.find c s)%Z.
Proof.
  induction s as [|d s IH]; cbn [PyStr.find]; [now left|].
  destruct (Ascii.eqb c d); [right; lia|].
  destruct (PyStr.find c s =? -1)%Z eqn:E; [now left|].
  right. apply Z.eqb_neq in E. lia.
Qed.

(** The first occurrence of a character that the text before it lacks. *)
Lemma find_after c pre rest :
  PyStr.find c pre = (-1)%Z ->
  PyStr.find c (pre ++ String c rest)%string = Z.of_nat (String.length pre).
Proof.
  induction pre as [|d pre IH]; cbn [append PyStr.find String.length].
  - intros _. now rewrite Ascii.eqb_refl.
  - destruct (Ascii.eqb c d); [discriminate|].
    destruct (PyStr.find c pre =? -1)%Z eqn:E.
    + intros _. apply Z.eqb_eq in E. rewrite (IH E).
      destruct (Z.of_nat (String.length pre) =? -1)%Z eqn:E'.
      * apply Z.eqb_eq in E'. lia.
      * lia.
    + intros H. apply Z.eqb_neq in E.
      destruct (find_absent_or_index c pre); lia.
Qed.

Lemma rfind_absent_or_index c s :
  PyStr.rfind c s = (-1)%Z \/ (0 <= PyStr.rfind c s)%Z.
Proof.
  induction s as [|d s IH]; cbn [PyStr.rfind]; [now left|].
  destruct (PyStr.rfind c s =? -1)%Z eqn:E.
  - destruct (Ascii.eqb c d); [right; lia | now left].
  - right. apply Z.eqb_neq in E. lia.
Qed.

(** The last occurrence of a character that the text after it lacks. *)
Lemma rfind_before c pre post :
  PyStr.rfind c post = (-1)%Z ->
  PyStr.rfind c (pre ++ String c post)%string = Z.of_nat (String.length pre).
Proof.
  intros Hpost. induction pre as [|d pre IH]; cbn [append PyStr.rfind String.length].
  - rewrite Hpost. cbn. now rewrite Ascii.eqb_refl.
  - rewrite IH.
    destruct (Z.of_nat (String.length pre) =? -1)%Z eqn:E.
    + apply Z.eqb_eq in E. lia.
    + lia.
Qed.

Lemma substring_skip (pre s : string) (n : nat) :
  substring (String.length pre) n (pre ++ s)%string = substring 0 n s.
Proof. induction pre as [|d pre IH]; [reflexivity | exact IH]. Qed.

Lemma substring_front (s post : string) :
  substring 0 (String.length s) (s ++ post)%string = s.
Proof.
  induction s as [|d s IH]; cbn; [now destruct post | now rewrite IH].
Qed.

Lemma append_associative (a b c : string) :
  ((a ++ b) ++ c = a ++ (b ++ c))%string.
Proof. induction a as [|d a IH]; cbn; [reflexivity | now rewrite IH]. Qed.

Lemma length_append (a b : string) :
  String.length (a ++ b)%string = (String.length a + String.length b)%nat.
Proof. induction a as [|d a IH]; cbn; [reflexivity | now rewrite IH]. Qed.

(** X15: An object wrapped in prose: when the text before the first opening
    brace has none, the text after the last closing brace has none, and
    the whole does not decode, the result is what the part from brace to
    brace decodes to, or nothing. *)
Theorem wrapped_object_extracted :
  forall pre body post : string,
    PyStr.find "{" pre = (-1)%Z ->
    PyStr.rfind "}" post = (-1)%Z ->
    let object := String "{" (body ++ String "}" "")%string in
    let text := (pre ++ object ++ post)%string in
    json_loads text = None ->
    _safe_json_extract text
    = match json_loads object with
      | Some v => v
      | None => JNull
      end.
Proof.
  intros pre body post Hpre Hpost object text Hfail.
  assert (Etext1 : text = (pre ++ String "{" (body ++ String "}" post))%string).
  { unfold text, object. cbn [append]. now rewrite append_associative. }
  assert (Etext2 : text = ((pre ++ String "{" body) ++ String "}" post)%string).
  { rewrite Etext1. now rewrite append_associative. }
  assert (Hstart : PyStr.find "{" text = Z.of_nat (String.length pre)).
  { rewrite Etext1. now apply find_after. }
  assert (Hend : PyStr.rfind "}" text
                 = Z.of_nat (String.length pre + S (String.length body))).
  { rewrite Etext2, (rfind_before _ _ _ Hpost), length_append. reflexivity. }
  assert (Hne : text <> ""%string).
  { rewrite Etext1. now destruct pre. }
  destruct (ExtractFacts.safe_json_extract_stages text Hne) as (_ & Hstage & _).
  rewrite Hstage; [|exact Hfail|rewrite Hstart, Hend; lia].
  rewrite Hstart, Hend. unfold PyStr.slice.
  replace (Z.to_nat (Z.of_nat (String.length pre + S (String.length body)) + 1)
           - Z.to_nat (Z.of_nat (String.length pre)))%nat
    with (String.length object)
    by (unfold object; cbn [String.length]; rewrite length_append; cbn; lia).
  rewrite Nat2Z.id. unfold text.
  now rewrite substring_skip, substring_front.
Qed.

Lemma wrapped_object_extracted_witness :
  _safe_json_extract wrapped_score_json
  = JObj [("turn_quality_score"%string, JInt 8)].
Proof.
  exact (wrapped_object_extracted "Sure! Here is the JSON: "
           (String quote "turn_quality_score" ++ String quote ": 8")
           " Thanks." eq_refl eq_refl eq_refl).
Defined.

End ExtractMore.

(** ** More on the session logger *)
Module LoggerMore.
Import Json Logger.
Local Open Scope list_scope.

Lemma step_consistent l o : consistent l -> consistent (step l o).
Proof.
  intros (Ht & Hi & Hp). destruct o as [[clock role content interim]| | |];
    cbn [step call_clock call_role call_content call_is_interim].
  - destruct interim; repeat split; cbn; try (now right); assumption.
  - repeat split; cbn; try (now right); assumption.
  - repeat split; cbn; try (now right); assumption.
  - repeat split; cbn; assumption.
Qed.

Lemma run_ops_consistent os : forall l, consistent l -> consistent (run_ops l os).
Proof.
  induction os as [|o os IH]; intros l Hl; [exact Hl|].
  cbn. apply IH. now apply step_consistent.
Qed.

Lemma run_ops_coach_turns os : forall l,
  _coach_turns (run_ops l os) = _coach_turns l ++ coach_turn_entries os.
Proof.
  induction os as [|o os IH]; intros l; [cbn; now rewrite app_nil_r|].
  unfold run_ops in *. cbn [fold_left]. rewrite IH.
  destruct o as [[clock role content interim]| | |]; cbn;
    try (destruct interim); cbn; rewrite <- ?app_assoc; reflexivity.
Qed.

Lemma run_ops_session_eval os : forall l,
  session_eval_file (run_ops l os)
  = fold_left (fun acc o => match o with
                            | WriteSessionEval md => Some md
                            | _ => acc
                            end) os (session_eval_file l).
Proof.
  induction os as [|o os IH]; intros l; [reflexivity|].
  unfold run_ops in *. cbn [fold_left]. rewrite IH.
  destruct o as [[clock role content interim]| | |]; cbn;
    try (destruct interim); reflexivity.
Qed.

(** X16: Whatever calls are made on a new logger, each of its three files was
    either never written, its collection being empty, or holds the whole
    of its collection; the per-turn log is the sequence of the records
    appended, and the assessment file holds the last document written. *)
Theorem files_mirror_collections :
  forall (scenario stamp : string) (os : list op),
    let l := run_ops (init scenario stamp) os in
    mirrors (transcript_file l) (get_transcript_for_assessment l)
    /\ mirrors (interim_transcript_file l) (_interim_transcript l)
    /\ mirrors (per_turn_file l) (_coach_turns l)
    /\ _coach_turns l = coach_turn_entries os
    /\ session_eval_file l = last_session_eval os.
Proof.
  intros scenario stamp os. cbv zeta.
  assert (H0 : consistent (init scenario stamp))
    by (repeat split; left; split; reflexivity).
  destruct (run_ops_consistent os (init scenario stamp) H0) as (Ht & Hi & Hp).
  split; [exact Ht|]. split; [exact Hi|]. split; [exact Hp|].
  split; [apply (run_ops_coach_turns os (init scenario stamp))|].
  apply (run_ops_session_eval os (init scenario stamp)).
Qed.

End LoggerMore.

(** ** More on the prompts repository *)
Module PromptsMore.
Import Prompts.
Local Open Scope list_scope.

Lemma filter_twice {A} (f g : A -> bool) (l : list A) :
  filter g (filter f l) = filter (fun x => f x && g x) l.
Proof.
  induction l as [|x l IH]; [reflexivity|].
  cbn. destruct (f x); cbn; [destruct (g x)|]; now rewrite IH.
Qed.

Lemma filter_all {A} (l : list A) : filter (fun _ => true) l = l.
Proof. induction l as [|x l IH]; cbn; [reflexivity | now rewrite IH]. Qed.

(** X17: [find] keeps, in the order of the repository, the prompts that pass
    every filter given; a filter that is absent or the empty string lets
    every prompt pass, so that [find] without filters is the whole
    repository. *)
Theorem find_is_filter :
  forall (repo : PromptsRepository) (e s n : option string),
    find repo e s n = filter (matches e s n) repo
    /\ (forall p, In p (find repo e s n) <-> In p repo /\ matches e s n p = true)
    /\ find repo (Some ""%string) (Some ""%string) (Some ""%string) = repo
    /\ find repo None None None = repo.
Proof.
  intros repo e s n.
  assert (H : forall e s n, find repo e s n = filter (matches e s n) repo).
  { clear. intros e s n. unfold find, matches.
    destruct e as [e|]; [destruct (PyStr.truthy e)|];
      (destruct s as [s|]; [destruct (PyStr.truthy s)|]);
      (destruct n as [n|]; [destruct (PyStr.truthy n)|]);
      rewrite ?filter_twice; cbn [andb];
      try reflexivity;
      try (rewrite filter_all; reflexivity);
      try (apply filter_ext; intros p; now rewrite ?andb_true_r, ?andb_assoc). }
  split; [apply H|]. split; [|split].
  - intros p. rewrite H. apply filter_In.
  - rewrite H. apply filter_all.
  - rewrite H. apply filter_all.
Qed.

End PromptsMore.

(** ** The viewer *)
Module ViewerFacts.
Import Json Logger Viewer.
Local Open Scope list_scope.




End ViewerFacts.

(** ** The guardrails *)
Module GuardrailFacts.
Import Json Guardrail.
Local Open Scope list_scope.

Lemma lower_char_idempotent c :
  PyStr.lower_char (PyStr.lower_char c) = PyStr.lower_char c.
Proof.
  destruct c as [[] [] [] [] [] [] [] []]; vm_compute; reflexivity.
Qed.

Lemma lower_idempotent s : PyStr.lower (PyStr.lower s) = PyStr.lower s.
Proof.
  induction s as [|c s IH]; [reflexivity|].
  cbn. now rewrite lower_char_idempotent, IH.
Qed.

Lemma prefix_of_lower p : forall s,
  prefix p s = true -> PyStr.lower s = s -> PyStr.lower p = p.
Proof.
  induction p as [|a p IH]; intros s Hp Hs; [reflexivity|].
  destruct s as [|b s]; [discriminate|].
  cbn in Hp. destruct (ascii_dec a b) as [->|]; [|discriminate].
  cbn in Hs. injection Hs as Hb Hs'.
  cbn. now rewrite Hb, (IH s Hp Hs').
Qed.

(** What a text in lower case contains is in lower case. *)
Lemma contains_of_lower p s :
  PyStr.contains p s = true -> PyStr.lower s = s -> PyStr.lower p = p.
Proof.
  induction s as [|b s IH]; cbn [PyStr.contains]; intros Hc Hs;
    apply orb_true_iff in Hc; destruct Hc as [Hc|Hc].
  - now apply (prefix_of_lower p ""%string).
  - discriminate.
  - now apply (prefix_of_lower p (String b s)).
  - cbn in Hs. injection Hs as _ Hs'. now apply IH.
Qed.

Lemma existsb_filter {A} (f g : A -> bool) (l : list A) :
  (forall x, f x = true -> g x = true) ->
  existsb f (filter g l) = existsb f l.
Proof.
  intros Hfg. induction l as [|x l IH]; [reflexivity|].
  cbn. destruct (g x) eqn:Hg; cbn; rewrite IH; [reflexivity|].
  destruct (f x) eqn:Hf; [|reflexivity].
  apply Hfg in Hf. congruence.
Qed.

(** X19: The verdict of [check_off_topic]: off topic exactly when the message
    is not empty, some pattern occurs in it and no banking keyword does;
    the reminder comes with that verdict and only with it, and is that of
    the scenario or the default one. *)
Theorem off_topic_verdict :
  forall (pt : Patterns) (message scenario : string),
    let verdict := check_off_topic pt message scenario in
    (fst verdict = true <->
     message <> ""%string
     /\ existsb (fun p => PyStr.contains p (PyStr.lower message)) (off_topic pt) = true
     /\ existsb (fun k => PyStr.contains k (PyStr.lower message))
          (banking_keywords pt) = false)
    /\ snd verdict
       = (if fst verdict then Some (reminder_for pt scenario) else None)
    /\ (forall r, List.find (fun kv => fst kv =? scenario)%string (reminders pt) = None ->
                  snd verdict = Some r -> r = default_reminder).
Proof.
  intros pt message scenario. cbv zeta. unfold check_off_topic.
  destruct message as [|c m]; cbn [PyStr.truthy negb].
  - split; [|split]; cbn; [|reflexivity|discriminate].
    split; [discriminate | now intros [H _]].
  - destruct (existsb _ (off_topic pt)) eqn:Eo;
      destruct (existsb _ (banking_keywords pt)) eqn:Eb; cbn.
    + split; [|split]; [|reflexivity|discriminate].
      split; [discriminate | now intros (_ & _ & H)].
    + split; [|split]; [|reflexivity|].
      * split; [intros _; repeat split; discriminate | reflexivity].
      * intros r Hfind H. injection H as <-.
        unfold reminder_for. now rewrite Hfind.
    + split; [|split]; [|reflexivity|discriminate].
      split; [discriminate | now intros (_ & H & _)].
    + split; [|split]; [|reflexivity|discriminate].
      split; [discriminate | now intros (_ & H & _)].
Qed.

(** X20: The check looks at the message in lower case and at the patterns as
    they are written: the case of the message does not matter, and a
    pattern or keyword with a capital letter in it never counts. *)
Theorem off_topic_case :
  forall (pt : Patterns) (message scenario : string),
    check_off_topic pt (PyStr.lower message) scenario
    = check_off_topic pt message scenario
    /\ check_off_topic (lower_case_only pt) message scenario
       = check_off_topic pt message scenario.
Proof.
  intros pt message scenario. split.
  - unfold check_off_topic. rewrite lower_idempotent.
    now destruct message.
  - unfold check_off_topic, lower_case_only, reminder_for. cbn.
    destruct (PyStr.truthy message); cbn [negb]; [|reflexivity].
    rewrite !existsb_filter; [reflexivity| |];
      intros p Hp; apply String.eqb_eq;
      apply (contains_of_lower p _ Hp), lower_idempotent.
Qed.





End GuardrailFacts.

(** ** More on the session handlers *)
Module BotMore.
Import Json Coach Bot.
Local Open Scope list_scope.

Lemma on_interim_frame_view s clock text :
  final_view (on_interim_frame s clock text) = final_view s.
Proof. unfold on_interim_frame. now destruct (PyStr.truthy text). Qed.

Lemma handle_message_view s1 s2 em :
  final_view s1 = final_view s2 ->
  final_view (handle_message s1 em) = final_view (handle_message s2 em).
Proof.
  destruct s1 as [l1 a1 st1 c1], s2 as [l2 a2 st2 c2].
  destruct l1, l2, em as [env m]. unfold final_view. cbn.
  intros H. injection H as -> -> -> -> -> -> -> -> -> ->.
  unfold handle_message. cbn.
  destruct (Aggregator.add_message a2 (role m) (content m))
    as [[[cp rr]|] agg]; [|reflexivity].
  unfold evaluate_and_record. cbn.
  destruct (ensure_started (genai_model env) c2) as [coach1|e]; [|reflexivity].
  destruct (evaluate_turn coach1 st2 cp rr) as [[[ev|]|e] st]; try reflexivity.
  now destruct (Json.truthy (parsed ev)).
Qed.

Lemma evaluate_and_record_interim env s cp rr :
  Logger._interim_transcript (session_logger (evaluate_and_record env s cp rr))
  = Logger._interim_transcript (session_logger s).
Proof.
  unfold evaluate_and_record.
  destruct (ensure_started _ _) as [coach1|e]; [|reflexivity].
  destruct (evaluate_turn coach1 (conv_state s) cp rr) as [[[ev|]|e] st1];
    cbn; try reflexivity.
  now destruct (Json.truthy (parsed ev)).
Qed.

Lemma handle_message_interim s em :
  length (Logger._interim_transcript (session_logger (handle_message s em)))
  = S (length (Logger._interim_transcript (session_logger s))).
Proof.
  destruct em as [env m]. unfold handle_message.
  destruct (Aggregator.add_message _ _ _) as [[[cp rr]|] agg].
  - rewrite evaluate_and_record_interim. cbn. rewrite length_app. cbn. lia.
  - cbn. rewrite length_app. cbn. lia.
Qed.

Lemma run_session_view evs : forall s1 s2,
  final_view s1 = final_view s2 ->
  final_view (run_session s1 evs)
  = final_view (on_transcript_update s2 (final_messages evs)).
Proof.
  induction evs as [|ev evs IH]; intros s1 s2 H; [exact H|].
  unfold run_session, on_transcript_update in *. cbn [fold_left].
  destruct ev as [clock text|em]; cbn [handle_event final_messages flat_map app].
  - apply IH. now rewrite on_interim_frame_view.
  - cbn [fold_left]. apply IH. now apply handle_message_view.
Qed.

Lemma run_session_interim evs : forall s,
  length (Logger._interim_transcript (session_logger (run_session s evs)))
  = (length (Logger._interim_transcript (session_logger s))
     + length (interim_texts evs) + length (final_messages evs))%nat.
Proof.
  induction evs as [|ev evs IH]; intros s; [cbn; lia|].
  unfold run_session in *. cbn [fold_left]. rewrite IH.
  destruct ev as [clock text|em]; cbn [handle_event].
  - unfold on_interim_frame, interim_texts, final_messages. cbn [flat_map].
    destruct (PyStr.truthy text); cbn; rewrite ?length_app; cbn; lia.
  - rewrite handle_message_interim.
    unfold interim_texts, final_messages. cbn. lia.
Qed.

(** X22: Interim frames reach the interim-inclusive log and nothing else: the
    aggregator, the state of the conversation, the coach, the final
    transcript, the per-turn records and the other files end as if the
    interim frames had never arrived; the interim-inclusive log has one
    entry for each message and each interim frame with a text. *)
Theorem interim_frames_do_not_interfere :
  forall (s : Session) (evs : list event),
    final_view (run_session s evs)
    = final_view (on_transcript_update s (final_messages evs))
    /\ length (Logger._interim_transcript (session_logger (run_session s evs)))
       = (length (Logger._interim_transcript (session_logger s))
          + length (interim_texts evs) + length (final_messages evs))%nat.
Proof.
  intros s evs. split.
  - now apply run_session_view.
  - apply run_session_interim.
Qed.

Lemma generate_session_assessment_returns c st (ts : list Logger.TranscriptEntry) :
  exists markdown,
    generate_session_assessment c st (map Logger.asdict ts) = Ok markdown.
Proof.
  destruct ts as [|t ts]; [eexists; reflexivity|].
  destruct (Prompts.find (_prompts_repo c) (Some "coach_agent"%string) None
              (Some "Session Assessment"%string)) as [|p ps] eqn:Hfind.
  - unfold generate_session_assessment. cbn [map]. rewrite Hfind.
    eexists; reflexivity.
  - rewrite (AssessmentFacts.assessment_of_readable c st _ p ps
               (AssessmentFacts.logger_entries_readable (t :: ts))
               ltac:(discriminate) Hfind).
    destruct (assessment_attempt _ _) as [markdown|[|k msg]]; eexists; reflexivity.
Qed.

Lemma ensure_started_startable m c :
  startable c -> exists c', ensure_started m c = Ok c' /\ startable c'.
Proof.
  intros [Hr|Hk]; unfold ensure_started.
  - rewrite Hr. cbn. exists c. split; [reflexivity | now left].
  - destruct (is_ready c) eqn:Hr; cbn.
    + exists c. split; [reflexivity | now left].
    + unfold start. rewrite Hk. cbn. eexists. split; [reflexivity | now left].
Qed.

Lemma evaluate_and_record_startable env s cp rr :
  startable (coach s) -> startable (coach (evaluate_and_record env s cp rr)).
Proof.
  intros Hs. unfold evaluate_and_record.
  destruct (ensure_started_startable (genai_model env) (coach s) Hs)
    as (c' & -> & Hs').
  now destruct (evaluate_turn c' (conv_state s) cp rr).
Qed.

Lemma evaluate_and_record_aggregator env s cp rr :
  conversation_aggregator (evaluate_and_record env s cp rr)
  = conversation_aggregator s.
Proof.
  unfold evaluate_and_record.
  destruct (ensure_started _ _) as [coach1|e]; [|reflexivity].
  now destruct (evaluate_turn coach1 (conv_state s) cp rr).
Qed.

Lemma evaluate_and_record_logger env s cp rr :
  Logger._transcript (session_logger (evaluate_and_record env s cp rr))
  = Logger._transcript (session_logger s)
  /\ Logger.session_eval_file (session_logger (evaluate_and_record env s cp rr))
     = Logger.session_eval_file (session_logger s).
Proof.
  unfold evaluate_and_record.
  destruct (ensure_started _ _) as [coach1|e]; [|split; reflexivity].
  destruct (evaluate_turn coach1 (conv_state s) cp rr) as [[[ev|]|e] st1];
    cbn; try (split; reflexivity).
  destruct (Json.truthy (parsed ev)); split; reflexivity.
Qed.

Lemma flush_and_evaluate_logger env s :
  Logger._transcript (session_logger (flush_and_evaluate env s))
  = Logger._transcript (session_logger s)
  /\ Logger.session_eval_file (session_logger (flush_and_evaluate env s))
     = Logger.session_eval_file (session_logger s).
Proof.
  unfold flush_and_evaluate.
  destruct (Aggregator.flush_pending_turn _) as [[[cp rr]|] agg];
    [|split; reflexivity].
  apply (evaluate_and_record_logger env
           {| session_logger := session_logger s;
              conversation_aggregator := agg;
              conv_state := conv_state s;
              coach := coach s |} cp rr).
Qed.

Lemma flush_and_evaluate_facts env s :
  let s' := flush_and_evaluate env s in
  conversation_aggregator s'
  = snd (Aggregator.flush_pending_turn (conversation_aggregator s))
  /\ recorded_messages s' = recorded_messages s
  /\ (recorded_turns s
      = map (fun ev => Some (recorded_turn ev)) (parsed_evaluations s) ->
      recorded_turns s'
      = map (fun ev => Some (recorded_turn ev)) (parsed_evaluations s'))
  /\ (startable (coach s) -> startable (coach s')).
Proof.
  cbv zeta. unfold flush_and_evaluate.
  destruct (Aggregator.flush_pending_turn (conversation_aggregator s))
    as [[[cp rr]|] agg]; cbn [snd].
  - split; [now rewrite evaluate_and_record_aggregator|].
    split; [now rewrite BotFacts.evaluate_and_record_transcript|].
    split.
    + intros Inv. apply BotFacts.evaluate_and_record_turns. exact Inv.
    + intros Hs. apply evaluate_and_record_startable. exact Hs.
  - repeat split; auto.
Qed.

Lemma assess_and_write_facts env s :
  let s' := assess_and_write env s in
  conversation_aggregator s' = conversation_aggregator s
  /\ conv_state s' = conv_state s
  /\ Logger._transcript (session_logger s') = Logger._transcript (session_logger s)
  /\ Logger._coach_turns (session_logger s') = Logger._coach_turns (session_logger s)
  /\ Logger.transcript_file (session_logger s')
     = Logger.transcript_file (session_logger s)
  /\ (Logger._transcript (session_logger s) = [] ->
      s' = s)
  /\ (Logger._transcript (session_logger s) <> [] -> startable (coach s) ->
      exists markdown,
        ensure_started (genai_model env) (coach s) = Ok (coach s')
        /\ generate_session_assessment (coach s') (conv_state s)
             (Logger.get_transcript_for_assessment (session_logger s))
           = Ok markdown
        /\ Logger.session_eval_file (session_logger s') = Some markdown).
Proof.
  cbv zeta. unfold assess_and_write, Logger.get_transcript_for_assessment.
  destruct (Logger._transcript (session_logger s)) as [|t ts] eqn:Et.
  - cbn. repeat split; try reflexivity; try assumption. congruence.
  - cbn [map].
    destruct (ensure_started (genai_model env) (coach s)) as [c'|e] eqn:Ee.
    + destruct (generate_session_assessment_returns c' (conv_state s) (t :: ts))
        as (md & Hmd).
      cbn [map] in Hmd. rewrite Hmd. cbn. rewrite Et.
      repeat split; try reflexivity; try discriminate.
      intros _ _. exists md. repeat split. exact Hmd.
    + rewrite Et. repeat split; try reflexivity; try discriminate.
      intros _ Hs. destruct (ensure_started_startable (genai_model env) _ Hs)
        as (c' & Hc & _). congruence.
Qed.

(** X23: The end of a session: after [on_client_disconnected] no turn is
    pending, the final transcript is unchanged and is what its file
    holds, and the per-turn records still are the evaluations with a
    true [parsed]. Without any message no assessment is written; with
    messages and a coach that can be started, the coach of the session
    is the one that [ensure_started] returned after the pending turn was
    handled, and the assessment file holds the document that
    [generate_session_assessment] returns for that coach, the final
    state of the conversation and the final transcript. *)
Theorem disconnect_completes_session :
  forall (env : Env) (s : Session),
    let s' := on_client_disconnected env s in
    Aggregator.has_pending_turn (conversation_aggregator s') = false
    /\ recorded_messages s' = recorded_messages s
    /\ Logger.transcript_file (session_logger s')
       = Some (JArr (Logger.get_transcript_for_assessment (session_logger s')))
    /\ (recorded_turns s
        = map (fun ev => Some (recorded_turn ev)) (parsed_evaluations s) ->
        recorded_turns s'
        = map (fun ev => Some (recorded_turn ev)) (parsed_evaluations s'))
    /\ (recorded_messages s = [] ->
        Logger.session_eval_file (session_logger s')
        = Logger.session_eval_file (session_logger s))
    /\ (recorded_messages s <> [] -> startable (coach s) ->
        ensure_started (genai_model env) (coach (flush_and_evaluate env s))
        = Ok (coach s')
        /\ conv_state s' = conv_state (flush_and_evaluate env s)
        /\ exists markdown,
             generate_session_assessment (coach s') (conv_state s')
               (Logger.get_transcript_for_assessment (session_logger s'))
             = Ok markdown
             /\ Logger.session_eval_file (session_logger s') = Some markdown).
Proof.
  intros env s. cbv zeta. unfold on_client_disconnected.
  set (s1 := flush_and_evaluate env s).
  set (s2 := with_logger s1 (Logger.snapshot_transcript (session_logger s1))).
  destruct (flush_and_evaluate_facts env s) as (Ha & Hm & Ht & Hs).
  fold s1 in Ha, Hm, Ht, Hs.
  destruct (assess_and_write_facts env s2) as (Fa & Fst & Ftr & Fct & Ftf & Fe0 & Fe1).
  assert (Htr2 : Logger._transcript (session_logger s2)
                 = Logger._transcript (session_logger s1)) by reflexivity.
  assert (Hmsg : forall x y : Session,
            Logger._transcript (session_logger x) = Logger._transcript (session_logger y) ->
            recorded_messages x = recorded_messages y).
  { intros x y E. unfold recorded_messages. now rewrite E. }
  assert (Hnil : forall x : Session,
            recorded_messages x = [] <-> Logger._transcript (session_logger x) = []).
  { intros x. unfold recorded_messages.
    destruct (Logger._transcript (session_logger x)); cbn; split; congruence. }
  split; [|split; [|split; [|split; [|split]]]].
  - rewrite Fa. change (conversation_aggregator s2) with (conversation_aggregator s1).
    rewrite Ha. apply AggregatorMore.flush_clears.
  - rewrite (Hmsg _ s1), Hm; [reflexivity | now rewrite Ftr].
  - rewrite Ftf. unfold Logger.get_transcript_for_assessment. rewrite Ftr.
    reflexivity.
  - intros Inv. specialize (Ht Inv).
    unfold recorded_turns, parsed_evaluations in *.
    rewrite Fct, Fst. exact Ht.
  - intros H0. rewrite Fe0.
    + apply (flush_and_evaluate_logger env s).
    + rewrite Htr2. apply Hnil. now rewrite Hm.
  - intros Hne Hst.
    destruct Fe1 as (md & Hc & Hmd & Hfile).
    + rewrite Htr2. intros E. apply Hne. rewrite <- Hm. now apply Hnil.
    + now apply Hs.
    + split; [exact Hc|]. split; [exact Fst|].
      exists md. split; [|exact Hfile].
      rewrite Fst. unfold Logger.get_transcript_for_assessment in *.
      now rewrite Ftr.
Qed.

Lemma disconnect_completes_session_witness :
  let s := on_transcript_update
             (new_session "card" "S" "Sarah Chen" (sample_coach timeout_model))
             (map (fun m => (sample_env timeout_model, m))
                [mkMessage "assistant" "Hi"; mkMessage "user" "Ok"]) in
  Logger.session_eval_file
    (session_logger (on_client_disconnected (sample_env timeout_model) s))
  = Some fallback_timeout.
Proof.
  cbv zeta.
  destruct (disconnect_completes_session (sample_env timeout_model)
              (on_transcript_update
                 (new_session "card" "S" "Sarah Chen" (sample_coach timeout_model))
                 (map (fun m => (sample_env timeout_model, m))
                    [mkMessage "assistant" "Hi"; mkMessage "user" "Ok"])))
    as (_ & _ & _ & _ & _ & H).
  destruct H as (_ & _ & md & Hmd & Hfile).
  - vm_compute. discriminate.
  - left. reflexivity.
  - rewrite Hfile.
    assert (E : Ok md = Ok fallback_timeout)
      by (rewrite <- Hmd; vm_compute; reflexivity).
    now injection E as ->.
Defined.

(** X24: The last exchange is not lost: when a turn is pending at the
    disconnection, the coach can be started and the pair is not the one
    last recorded, the turn is stored and submitted for evaluation, so
    that [turn_index] grows by one and the pair becomes the last one
    recorded; when no turn is pending, the state of the conversation is
    left as it is. *)
Theorem pending_turn_evaluated_at_disconnect :
  forall (env : Env) (s : Session),
    let a := conversation_aggregator s in
    let s' := on_client_disconnected env s in
    (Aggregator.has_pending_turn a = false -> conv_state s' = conv_state s)
    /\ (forall p,
          Aggregator.has_pending_turn a = true ->
          Aggregator.pending_customer_prompt a = Some p ->
          startable (coach s) ->
          let response := Aggregator.aggregate (Aggregator.pending_rep_fragments a) in
          is_duplicate (conv_state s) p response = false ->
          turn_index (conv_state s') = (turn_index (conv_state s) + 1)%Z
          /\ last_customer_message (conv_state s') = Some p
          /\ last_evaluated_rep_response (conv_state s') = Some response
          /\ Aggregator.get_turn_count (conversation_aggregator s')
             = (Aggregator.get_turn_count a + 1)%Z).
Proof.
  intros env s. cbv zeta. unfold on_client_disconnected.
  set (s1 := flush_and_evaluate env s).
  set (s2 := with_logger s1 (Logger.snapshot_transcript (session_logger s1))).
  destruct (assess_and_write_facts env s2) as (Fa & Fst & _).
  rewrite Fa, Fst.
  change (conv_state s2) with (conv_state s1).
  change (conversation_aggregator s2) with (conversation_aggregator s1).
  unfold s1, flush_and_evaluate, Aggregator.flush_pending_turn.
  split.
  - intros Hp. now rewrite Hp.
  - intros p Hp Ep Hs Hd. rewrite Hp, Ep.
    rewrite evaluate_and_record_aggregator. cbn [conversation_aggregator].
    unfold evaluate_and_record. cbn [coach conv_state session_logger].
    destruct (ensure_started_startable (genai_model env) (coach s) Hs)
      as (c' & -> & _).
    destruct (CoachFacts.evaluate_turn_not_duplicate c' (conv_state s) p _ Hd)
      as [(e & E)|(ev & E & _)]; rewrite E; cbn; repeat split.
Qed.

Lemma pending_turn_evaluated_at_disconnect_witness :
  let s := on_transcript_update
             (new_session "card" "S" "Sarah Chen" (sample_coach timeout_model))
             (map (fun m => (sample_env timeout_model, m))
                [mkMessage "assistant" "Hi"; mkMessage "user" "Ok"]) in
  turn_index (conv_state (on_client_disconnected (sample_env timeout_model) s))
  = 1%Z.
Proof.
  cbv zeta.
  apply (proj2 (pending_turn_evaluated_at_disconnect (sample_env timeout_model)
                  (on_transcript_update
                     (new_session "card" "S" "Sarah Chen"
                        (sample_coach timeout_model))
                     (map (fun m => (sample_env timeout_model, m))
                        [mkMessage "assistant" "Hi"; mkMessage "user" "Ok"])))
           "Hi"%string eq_refl eq_refl (or_introl eq_refl) eq_refl).
Defined.

End BotMore.
